(** * Technical Debt Agent (tda): the CLI glue, embedded and verified

    Source files embedded here:
    - [tda/cli.py]            : [load_system_prompt], [run_agent], [main]
    - [tda/logging_config.py] : [setup_logging]

    Python strings are sequences of Unicode code points, so a [str] is a
    list of code points.  Calls to the collaborators the program does not
    implement (the console through [click.echo], the agent SDK client, the
    log file) are recorded as events of a trace, in program order. *)

From Stdlib Require Import ZArith NArith Lia.
From Stdlib Require Import Strings.String Strings.Ascii DecimalString.
From Stdlib Require Import Floats.SpecFloat.
From stdpp Require Import base list gmap.

Local Open Scope N_scope.

(** ** Python [str] *)

Module PyStr.

(** A code point. *)
Definition char := N.
Definition str := list char.

(** A literal of the source text, character by character. *)
Fixpoint lit (s : string) : str :=
  match s with
  | EmptyString => []
  | String a s' => N_of_ascii a :: lit s'
  end.

(** [str.isspace] on one character, which is what [str.strip()] and
    [str.split()] test: CPython's [_PyUnicode_IsWhitespace]. *)
Definition isspace (c : char) : bool :=
  ((0x09 <=? c) && (c <=? 0x0D))
  || ((0x1C <=? c) && (c <=? 0x20))
  || (c =? 0x85) || (c =? 0xA0) || (c =? 0x1680)
  || ((0x2000 <=? c) && (c <=? 0x200A))
  || (c =? 0x2028) || (c =? 0x2029) || (c =? 0x202F)
  || (c =? 0x205F) || (c =? 0x3000).

(** [s.startswith(p)] *)
Fixpoint startswith (s p : str) {struct p} : bool :=
  match p, s with
  | [], _ => true
  | _ :: _, [] => false
  | a :: p', b :: s' => (a =? b) && startswith s' p'
  end.

(** [s.lstrip()]: drop the leading run of whitespace. *)
Fixpoint lstrip (s : str) : str :=
  match s with
  | [] => []
  | c :: s' => if isspace c then lstrip s' else s
  end.

(** [s.rstrip()]: the same scan from the right end. *)
Definition rstrip (s : str) : str := reverse (lstrip (reverse s)).

(** [s.strip()] *)
Definition strip (s : str) : str := rstrip (lstrip s).

(** [s.split()] with no separator: maximal runs of non-whitespace.
    [cur] is the word being scanned, last character first. *)
Fixpoint split_aux (cur : str) (s : str) : list str :=
  match s with
  | [] => match cur with [] => [] | _ :: _ => [reverse cur] end
  | c :: s' =>
      if isspace c then
        match cur with
        | [] => split_aux [] s'
        | _ :: _ => reverse cur :: split_aux [] s'
        end
      else split_aux (c :: cur) s'
  end.

Definition split (s : str) : list str := split_aux [] s.

(** [sep.join(ws)] *)
Fixpoint join (sep : str) (ws : list str) : str :=
  match ws with
  | [] => []
  | w :: ws' =>
      match ws' with
      | [] => w
      | _ :: _ => w ++ sep ++ join sep ws'
      end
  end.

End PyStr.

Import PyStr.

(** ** Python [float] and the [.4f] format *)

Module PyFloat.

(** An IEEE 754 double: [S754_finite s m e] is (-1)^s * m * 2^e. *)
Definition float := spec_float.

(** [bool(x)]: every float but the two zeros is true. *)
Definition float_bool (x : float) : bool :=
  match x with
  | S754_zero _ => false
  | _ => true
  end.

Definition digits (n : N) : str := lit (NilZero.string_of_uint (N.to_uint n)).

(** Four decimal digits, zero padded on the left. *)
Definition zfill4 (n : N) : str :=
  let d := digits n in
  replicate (4 - length d)%nat 0x30 ++ d.

(** [num / den] rounded to the nearest integer, ties to even. *)
Definition round_half_even (num den : N) : N :=
  let q := num / den in
  let r := num mod den in
  if (den <? 2 * r) || ((2 * r =? den) && N.odd q) then q + 1 else q.

Definition sign_str (s : bool) : str := if s then lit "-" else [].

(** [format(x, ".4f")]: the exact value of the double, correctly rounded
    to four digits after the point. *)
Definition format_4f (x : float) : str :=
  match x with
  | S754_nan => lit "nan"
  | S754_infinity s => sign_str s ++ lit "inf"
  | S754_zero s => sign_str s ++ lit "0.0000"
  | S754_finite s m e =>
      let scaled :=
        match e with
        | Z0 => Npos m * 10000
        | Zpos p => Npos m * 2 ^ Npos p * 10000
        | Zneg p => round_half_even (Npos m * 10000) (2 ^ Npos p)
        end in
      sign_str s ++ digits (scaled / 10000) ++ lit "." ++ zfill4 (scaled mod 10000)
  end.

End PyFloat.

Import PyFloat.

(** ** The agent SDK's data, as far as the program inspects it *)

Inductive ContentBlock :=
| TextBlock (text : str)
| ThinkingBlock (thinking : str)
| ToolUseBlock (name : str)
| ToolResultBlock (tool_use_id : str).

Inductive Message :=
| UserMessage (content : list ContentBlock)
| AssistantMessage (content : list ContentBlock)
| SystemMessage (subtype : str)
| ResultMessage (total_cost_usd : option float)
| StreamEvent.

(** Modelled from the spec: [techdebt_server] is defined in [tda/agent.py],
    which is not among the sources; the program only passes it on, so it is
    an opaque token. *)
Inductive McpServer := techdebt_server.

Record SystemPrompt := {
  sp_type : str;
  sp_preset : str;
  sp_append : str
}.

Record ClaudeAgentOptions := {
  mcp_servers : list (str * McpServer);
  allowed_tools : list str;
  cwd : str;
  permission_mode : str;
  system_prompt : SystemPrompt
}.

(** ** Effects *)

Inductive exn :=
| OSError | FileNotFoundError | ValueError | TypeError
| PromptyError | SDKError.

Inductive outcome (A : Type) :=
| Return (a : A)
| Raise (e : exn).
Arguments Return {A} a.
Arguments Raise {A} e.

(** The calls the program makes to its collaborators. *)
Inductive event :=
| Echo (message : str) (err : bool)     (* click.echo(message, err=err) *)
| OpenLog (filename : str)              (* RotatingFileHandler opens its file *)
| Connect (options : ClaudeAgentOptions)(* ClaudeSDKClient.__aenter__ *)
| Query (prompt : str)                  (* client.query(prompt) *)
| Disconnect.                           (* ClaudeSDKClient.__aexit__ *)

(** *** The [logging] module *)

Inductive HandlerKind :=
| RotatingFileHandler (filename : str) (maxBytes backupCount : N)
| StreamHandler.                        (* no stream given: sys.stderr *)

Record Handler := {
  kind : HandlerKind;
  formatter : option str;
  level : N
}.

Record Logger := {
  handlers : list Handler;
  logger_level : N
}.

Definition CRITICAL : N := 50.
Definition ERROR : N := 40.
Definition WARNING : N := 30.
Definition INFO : N := 20.
Definition DEBUG : N := 10.
Definition NOTSET : N := 0.

(** What an attribute of a module can hold, as far as [setLevel] tells
    values apart. *)
Inductive pyval :=
| PyInt (n : N)
| PyStr (s : str)
| PyDict.

Fixpoint eqb_str (a b : str) : bool :=
  match a, b with
  | [], [] => true
  | x :: a', y :: b' => (x =? y) && eqb_str a' b'
  | _, _ => false
  end.

Fixpoint assoc {V} (k : str) (kvs : list (string * V)) : option V :=
  match kvs with
  | [] => None
  | (k', v) :: kvs' => if eqb_str k (lit k') then Some v else assoc k kvs'
  end.

(** The attributes of the [logging] module whose names have no lowercase
    letter; every other attribute of the module has one, and [str.upper]
    returns no name with one. *)
Definition logging_attrs : list (string * pyval) :=
  [ ("BASIC_FORMAT"%string, PyStr (lit "%(levelname)s:%(name)s:%(message)s"));
    ("CRITICAL"%string, PyInt CRITICAL);
    ("DEBUG"%string, PyInt DEBUG);
    ("ERROR"%string, PyInt ERROR);
    ("FATAL"%string, PyInt CRITICAL);
    ("INFO"%string, PyInt INFO);
    ("NOTSET"%string, PyInt NOTSET);
    ("WARN"%string, PyInt WARNING);
    ("WARNING"%string, PyInt WARNING);
    ("_STYLES"%string, PyDict) ].

(** [getattr(logging, name, default)] *)
Definition getattr_logging (name : str) (dflt : pyval) : pyval :=
  match assoc name logging_attrs with
  | Some v => v
  | None => dflt
  end.

(** [logging._nameToLevel] *)
Definition nameToLevel : list (string * N) :=
  [ ("CRITICAL"%string, CRITICAL); ("FATAL"%string, CRITICAL);
    ("ERROR"%string, ERROR); ("WARN"%string, WARNING);
    ("WARNING"%string, WARNING); ("INFO"%string, INFO);
    ("DEBUG"%string, DEBUG); ("NOTSET"%string, NOTSET) ].

(** [logging._checkLevel], which [Handler.setLevel] applies to its
    argument. *)
Definition checkLevel (v : pyval) : outcome N :=
  match v with
  | PyInt n => Return n
  | PyStr s =>
      match assoc s nameToLevel with
      | Some n => Return n
      | None => Raise ValueError
      end
  | PyDict => Raise TypeError
  end.

(** *** The process and its surroundings *)

(** What one run of the SDK client does: whether the session opens,
    whether the query is accepted, the messages [receive_response] yields
    and whether the stream then ends or raises. *)
Record Script := {
  connect_error : option exn;
  query_error : option exn;
  response : list Message;
  response_error : option exn
}.

(** What the program reads and does not change. *)
Record Host := {
  unicode_upper : char -> str;   (* uppercase mapping outside ASCII *)
  tempdir_found : bool;          (* is there a usable temporary directory *)
  gettempdir : str;              (* tempfile.gettempdir(), when there is *)
  can_open : str -> bool;        (* can the file be opened for appending *)
  prompty_content : outcome str; (* load(system_prompt.prompty).content *)
  sdk : Script
}.

(** What the program changes. *)
Record state := {
  environ : gmap str str;        (* os.environ *)
  root : Logger;                 (* logging.root *)
  trace : list event
}.

Definition M (A : Type) : Type := state -> outcome A * state.

Definition ret {A} (a : A) : M A := fun st => (Return a, st).

Definition raise {A} (e : exn) : M A := fun st => (Raise e, st).

Definition bind {A B} (m : M A) (k : A -> M B) : M B :=
  fun st =>
    match m st with
    | (Return a, st') => k a st'
    | (Raise e, st') => (Raise e, st')
    end.

Declare Scope py_scope.
Delimit Scope py_scope with py.
Notation "x <- m ;; k" := (bind m (fun x => k))
  (at level 100, m at next level, right associativity) : py_scope.
Notation "m ;; k" := (bind m (fun _ => k))
  (at level 100, right associativity) : py_scope.
Local Open Scope py_scope.

Definition lift {A} (o : outcome A) : M A := fun st => (o, st).

Definition emit (e : event) : M unit :=
  fun st =>
    (Return tt,
     {| environ := environ st; root := root st; trace := trace st ++ [e] |}).

Definition get_root : M Logger := fun st => (Return (root st), st).

Definition set_root (l : Logger) : M unit :=
  fun st =>
    (Return tt, {| environ := environ st; root := l; trace := trace st |}).

(** [os.getenv(name, default)] *)
Definition getenv (name dflt : str) : M str :=
  fun st => (Return (default dflt (environ st !! name)), st).

(** [os.environ[name] = value] *)
Definition setenv (name value : str) : M unit :=
  fun st =>
    (Return tt,
     {| environ := <[name := value]> (environ st); root := root st;
        trace := trace st |}).

(** [for x in xs: body(x)] *)
Fixpoint for_each {A} (xs : list A) (body : A -> M unit) : M unit :=
  match xs with
  | [] => ret tt
  | x :: xs' => body x ;; for_each xs' body
  end.

(** [click.echo(message, err=err)] *)
Definition echo (message : str) (err : bool) : M unit := emit (Echo message err).

(** ** [tda/logging_config.py] *)

(** [str.upper]: ASCII letters here, the rest from the Unicode tables. *)
Definition upper_char (H : Host) (c : char) : str :=
  if (0x61 <=? c) && (c <=? 0x7A) then [c - 32]
  else if c <? 0x80 then [c]
  else unicode_upper H c.

Definition upper (H : Host) (s : str) : str := concat (map (upper_char H) s).

(** [os.path.join(a, b)] for a relative [b], as [posixpath] has it. *)
Definition path_join (a b : str) : str :=
  match last a with
  | None => b
  | Some c => if c =? 0x2F then a ++ b else a ++ lit "/" ++ b
  end.

(** [RotatingFileHandler(filename, maxBytes=.., backupCount=..)]: the
    constructor opens the file. *)
Definition new_RotatingFileHandler (H : Host) (filename : str)
    (maxBytes backupCount : N) : M Handler :=
  emit (OpenLog filename);;
  if can_open H filename
  then ret {| kind := RotatingFileHandler filename maxBytes backupCount;
              formatter := None; level := NOTSET |}
  else raise OSError.

Definition new_StreamHandler : M Handler :=
  ret {| kind := StreamHandler; formatter := None; level := NOTSET |}.

Definition setFormatter (h : Handler) (fmt : str) : Handler :=
  {| kind := kind h; formatter := Some fmt; level := level h |}.

Definition setLevel (h : Handler) (v : pyval) : M Handler :=
  l <- lift (checkLevel v);;
  ret {| kind := kind h; formatter := formatter h; level := l |}.

(** [tempfile.gettempdir()]: raises when no usable directory is found. *)
Definition tempfile_gettempdir (H : Host) : M str :=
  if tempdir_found H then ret (gettempdir H) else raise FileNotFoundError.

Definition setup_logging (H : Host) : M str :=
  log_level <- getenv (lit "TDA_LOG_LEVEL") (lit "INFO");;
  log_dir <- tempfile_gettempdir H;;
  let log_file := path_join log_dir (lit "tda.log") in
  (* Clear any existing handlers *)
  r <- get_root;;
  set_root {| handlers := []; logger_level := logger_level r |};;
  (* Create handlers *)
  file_handler <- new_RotatingFileHandler H log_file (5 * 1024 * 1024) 3;;
  console_handler <- new_StreamHandler;;
  (* Set format *)
  let file_handler :=
    setFormatter file_handler
      (lit "%(asctime)s - %(name)s - %(levelname)s - %(message)s") in
  let console_handler :=
    setFormatter console_handler
      (lit "%(levelname)s - %(name)s - %(message)s") in
  (* Set level on handlers *)
  file_handler <- setLevel file_handler (PyInt DEBUG);;
  console_handler <-
    setLevel console_handler
      (getattr_logging (upper H log_level) (PyInt INFO));;
  (* Configure root logger *)
  r <- get_root;;
  set_root {| handlers := handlers r; logger_level := DEBUG |};;
  r <- get_root;;
  set_root {| handlers := handlers r ++ [file_handler];
              logger_level := logger_level r |};;
  r <- get_root;;
  set_root {| handlers := handlers r ++ [console_handler];
              logger_level := logger_level r |};;
  ret log_file.

(** [setup_logging] called once, and then [n] more times. *)
Fixpoint setup_logging_times (H : Host) (n : nat) : M str :=
  match n with
  | O => setup_logging H
  | S n' => setup_logging H;; setup_logging_times H n'
  end.

(** ** [tda/cli.py] *)

Definition load_system_prompt (H : Host) : M str :=
  content <- lift (prompty_content H);;
  (* Remove the "system:" prefix if present *)
  if startswith content (lit "system:")
  then ret (strip (drop 7 content))
  else ret content.

(** The body of the inner loop: one block of an assistant message. *)
Definition on_block (block : ContentBlock) : M unit :=
  match block with
  | TextBlock text => echo text false
  | _ => ret tt
  end.

Definition cost_line (c : float) : str :=
  [0x0A] ++ lit "[Cost: $" ++ format_4f c ++ lit "]".

(** The body of the response loop: one message of the stream. *)
Definition on_message (message : Message) : M unit :=
  match message with
  | AssistantMessage content => for_each content on_block
  | ResultMessage total_cost_usd =>
      match total_cost_usd with
      | Some c => if float_bool c then echo (cost_line c) true else ret tt
      | None => ret tt
      end
  | _ => ret tt
  end.

(** [async for message in client.receive_response(): ...] *)
Definition response_loop (sc : Script) : M unit :=
  for_each (response sc) on_message;;
  match response_error sc with
  | None => ret tt
  | Some e => raise e
  end.

(** [await client.query(query)] *)
Definition client_query (sc : Script) (prompt : str) : M unit :=
  emit (Query prompt);;
  match query_error sc with
  | None => ret tt
  | Some e => raise e
  end.

(** [async with ClaudeSDKClient(options=options) as client: body]: the
    session is closed however the body ends, and what the body raised is
    raised again. *)
Definition with_client (sc : Script) (options : ClaudeAgentOptions)
    (body : M unit) : M unit :=
  emit (Connect options);;
  match connect_error sc with
  | Some e => raise e
  | None =>
      fun st =>
        match body st with
        | (r, st') => (emit Disconnect;; lift r) st'
        end
  end.

Definition run_agent (H : Host) (query cwd : str) : M unit :=
  custom_instructions <- load_system_prompt H;;
  (* Convert to single line by collapsing whitespace *)
  let single_line_instructions := join (lit " ") (split custom_instructions) in
  let options :=
    {| mcp_servers := [(lit "techdebt", techdebt_server)];
       allowed_tools :=
         [ lit "mcp__techdebt__extract_style_diagnostics";
           lit "mcp__techdebt__extract_analyzers_diagnostics" ];
       cwd := cwd;
       permission_mode := lit "acceptEdits";
       system_prompt :=
         {| sp_type := lit "preset";
            sp_preset := lit "claude_code";
            sp_append := single_line_instructions |} |} in
  with_client (sdk H) options
    (client_query (sdk H) query;;
     response_loop (sdk H)).

Definition main (H : Host) (query cwd : str) : M unit :=
  log_file <- setup_logging H;;
  setenv (lit "TDA_LOG_FILE") log_file;;
  run_agent H query cwd;;
  (* Print log file location at the end *)
  echo (lit "Logs: " ++ log_file) true.

(** ** Vocabulary of the statements *)

(** The events a computation adds to the trace when run from [st]. *)
Definition emitted {A} (m : M A) (st : state) : list event :=
  drop (length (trace st)) (trace (m st).2).

Definition add_events (evs : list event) (st : state) : state :=
  {| environ := environ st; root := root st; trace := trace st ++ evs |}.

(** What reached standard output, and what reached standard error,
    through [click.echo]. *)
Definition stdout_of (e : event) : option str :=
  match e with
  | Echo message false => Some message
  | _ => None
  end.

Definition stderr_of (e : event) : option str :=
  match e with
  | Echo message true => Some message
  | _ => None
  end.

Definition query_of (e : event) : option str :=
  match e with
  | Query prompt => Some prompt
  | _ => None
  end.

Definition text_of (block : ContentBlock) : option str :=
  match block with
  | TextBlock text => Some text
  | _ => None
  end.

(** The texts of the text blocks of the assistant messages of a stream,
    in stream order. *)
Definition text_segments (msgs : list Message) : list str :=
  concat (map (fun message =>
                 match message with
                 | AssistantMessage content => omap text_of content
                 | _ => []
                 end) msgs).

(** The cost summary of a message, when it has one to show. *)
Definition cost_of (message : Message) : option str :=
  match message with
  | ResultMessage (Some c) => if float_bool c then Some (cost_line c) else None
  | _ => None
  end.

(** Everything one message of the stream makes the loop print. *)
Definition message_output (message : Message) : list event :=
  match message with
  | AssistantMessage content => map (fun t => Echo t false) (omap text_of content)
  | _ => match cost_of message with
         | Some line => [Echo line true]
         | None => []
         end
  end.

(** A string between two runs of whitespace of [s], with none at either
    end of its own. *)
Definition stripped_of (r s : str) : Prop :=
  (exists lead tail,
      s = lead ++ r ++ tail
      /\ Forall (fun c => isspace c = true) lead
      /\ Forall (fun c => isspace c = true) tail)
  /\ (isspace <$> head r) <> Some true
  /\ (isspace <$> last r) <> Some true.

(** One line, words one space apart: every whitespace character is a
    single U+0020 with no whitespace next to it. *)
Definition only_spaces (r : str) : Prop :=
  forall c, c ∈ r -> isspace c = true -> c = 0x20.

Definition no_adjacent_whitespace (r : str) : Prop :=
  forall i a b, r !! i = Some a -> r !! S i = Some b ->
                isspace a && isspace b = false.

Definition options_of (e : event) : option ClaudeAgentOptions :=
  match e with
  | Connect options => Some options
  | _ => None
  end.

(** What one session with the SDK client leaves in the trace, and how it
    ends. *)
Definition session_events (sc : Script) (options : ClaudeAgentOptions)
    (query : str) : list event :=
  Connect options ::
  match connect_error sc with
  | Some _ => []
  | None =>
      Query query ::
      match query_error sc with
      | Some _ => []
      | None => concat (map message_output (response sc))
      end ++ [Disconnect]
  end.

Definition session_outcome (sc : Script) : outcome unit :=
  match connect_error sc, query_error sc, response_error sc with
  | Some e, _, _ => Raise e
  | None, Some e, _ => Raise e
  | None, None, Some e => Raise e
  | None, None, None => Return tt
  end.

(** Where the log file is, and the level the console handler is asked to
    take. *)
Definition log_path (H : Host) : str := path_join (gettempdir H) (lit "tda.log").

Definition console_level (H : Host) (st : state) : outcome N :=
  checkLevel
    (getattr_logging
       (upper H (default (lit "INFO") (environ st !! lit "TDA_LOG_LEVEL")))
       (PyInt INFO)).

(** The state [setup_logging] leaves when it raises after the temporary
    directory was found: the handlers are gone, and the log file has been
    asked for. *)
Definition cleared (H : Host) (st : state) : state :=
  {| environ := environ st;
     root := {| handlers := []; logger_level := logger_level (root st) |};
     trace := trace st ++ [OpenLog (log_path H)] |}.

(** Whether logging can be set up: a temporary directory is found, the log
    file opens and the console level is accepted. *)
Definition logging_ready (H : Host) (st : state) : bool :=
  tempdir_found H && can_open H (log_path H)
  && match console_level H st with Return _ => true | Raise _ => false end.

(** The messages the response loop gets to see in a session. *)
Definition consumed (sc : Script) : list Message :=
  match connect_error sc, query_error sc with
  | None, None => response sc
  | _, _ => []
  end.

(** The messages the response loop gets to see in a run of [main]: those
    of the session, when logging was set up and the prompt loaded. *)
Definition seen (H : Host) (st : state) : list Message :=
  if logging_ready H st then
    match prompty_content H with
    | Return _ => consumed (sdk H)
    | Raise _ => []
    end
  else [].

(** Whether nothing on the way of [main] raises: logging, the prompt, the
    session, the query, the stream. *)
Definition runs_clean (H : Host) (st : state) : bool :=
  logging_ready H st
  && match prompty_content H with Return _ => true | Raise _ => false end
  && match session_outcome (sdk H) with Return _ => true | Raise _ => false end.

(** A word of [split]: not empty, no whitespace in it. *)
Definition word (w : str) : Prop :=
  w <> [] /\ Forall (fun c => isspace c = false) w.

(** No two neighbours are both whitespace, checked pair by pair. *)
Fixpoint spaced (r : str) : bool :=
  match r with
  | [] => true
  | a :: r' =>
      match r' with
      | [] => true
      | b :: _ => negb (isspace a && isspace b) && spaced r'
      end
  end.

(** A computation only ever appends to the trace. *)
Definition grows {A} (m : M A) : Prop :=
  forall st, trace st `prefix_of` trace (m st).2.

(** ** Sample runs *)

(** 0.0123 as a double. *)
Definition cost_0_0123 : float := S754_finite false 7090467253332109 (-59).

(** A session that answers in two assistant messages and reports a cost. *)
Definition script_ok : Script :=
  {| connect_error := None;
     query_error := None;
     response :=
       [ SystemMessage (lit "init");
         AssistantMessage
           [ ThinkingBlock (lit "list the diagnostics first");
             TextBlock (lit "Found 3 style diagnostics.");
             ToolUseBlock (lit "mcp__techdebt__extract_style_diagnostics") ];
         AssistantMessage [ TextBlock (lit "Done.") ];
         ResultMessage (Some cost_0_0123) ];
     response_error := None |}.

(** A session whose result message carries no cost. *)
Definition script_no_cost : Script :=
  {| connect_error := None;
     query_error := None;
     response := [ AssistantMessage [ TextBlock (lit "Done.") ];
                   ResultMessage None ];
     response_error := None |}.

(** A session whose result message reports a cost of zero. *)
Definition script_zero_cost : Script :=
  {| connect_error := None;
     query_error := None;
     response := [ AssistantMessage [ TextBlock (lit "Done.") ];
                   ResultMessage (Some (S754_zero false)) ];
     response_error := None |}.

(** A session that cannot be opened. *)
Definition script_no_session : Script :=
  {| connect_error := Some SDKError;
     query_error := None;
     response := [];
     response_error := None |}.

Definition sample_template : str :=
  lit "system:" ++ [0x0A] ++ lit "You are a .NET expert." ++ [0x0A; 0x0A]
  ++ lit "  Use the tools." ++ [0x0A].

Definition host_of (sc : Script) : Host :=
  {| unicode_upper := fun c => [c];
     tempdir_found := true;
     gettempdir := lit "/tmp";
     can_open := fun _ => true;
     prompty_content := Return sample_template;
     sdk := sc |}.

(** A fresh process: [TDA_LOG_LEVEL] as given, the root logger as Python
    starts it. *)
Definition fresh (log_level : option str) : state :=
  {| environ :=
       match log_level with
       | Some v => {[ lit "TDA_LOG_LEVEL" := v ]}
       | None => ∅
       end;
     root := {| handlers := []; logger_level := WARNING |};
     trace := [] |}.

(** A process whose root logger was configured before, as
    [logging.basicConfig] leaves it. *)
Definition configured : state :=
  {| environ := {[ lit "TDA_LOG_LEVEL" := lit "debug" ]};
     root :=
       {| handlers :=
            [ {| kind := StreamHandler;
                 formatter := Some (lit "%(levelname)s:%(name)s:%(message)s");
                 level := NOTSET |} ];
          logger_level := WARNING |};
     trace := [] |}.

(** The template without its marker, before any stripping. *)
Definition unmarked (content : str) : str :=
  if startswith content (lit "system:") then drop 7 content else content.

(** A host on which the prompt template cannot be loaded. *)
Definition host_no_prompt : Host :=
  {| unicode_upper := fun c => [c];
     tempdir_found := true;
     gettempdir := lit "/tmp";
     can_open := fun _ => true;
     prompty_content := Raise PromptyError;
     sdk := script_ok |}.

(** A host on which the log file cannot be opened. *)
Definition host_no_log : Host :=
  {| unicode_upper := fun c => [c];
     tempdir_found := true;
     gettempdir := lit "/var/empty";
     can_open := fun _ => false;
     prompty_content := Return sample_template;
     sdk := script_ok |}.

(** A host without a usable temporary directory. *)
Definition host_no_tempdir : Host :=
  {| unicode_upper := fun c => [c];
     tempdir_found := false;
     gettempdir := [];
     can_open := fun _ => true;
     prompty_content := Return sample_template;
     sdk := script_ok |}.

(** A session whose stream breaks after the first answer. *)
Definition script_broken_stream : Script :=
  {| connect_error := None;
     query_error := None;
     response := [ AssistantMessage [ TextBlock (lit "Found 3 style diagnostics.") ] ];
     response_error := Some SDKError |}.

(** * Properties *)

(** ** Strings *)

Section Strings.

Implicit Types (s p r w : str) (ws : list str) (c : char).

Lemma startswith_app s p :
  startswith s p = true -> s = p ++ drop (length p) s.
Proof.
  revert s; induction p as [|a p IH]; intros [|b s]; simpl; try done.
  intros [Hab Hs]%andb_prop. apply N.eqb_eq in Hab as ->.
  by rewrite <- (IH s Hs).
Qed.

Lemma startswith_prefix s p : startswith s p = true <-> p `prefix_of` s.
Proof.
  split.
  - intros Hs. exists (drop (length p) s). by apply startswith_app.
  - intros [k ->]. induction p as [|a p IH]; simpl; [done|].
    by rewrite N.eqb_refl.
Qed.

Lemma lstrip_split s :
  exists lead, s = lead ++ lstrip s /\ Forall (fun c => isspace c = true) lead.
Proof.
  induction s as [|c s (lead & Hs & Hlead)]; simpl.
  - by exists [].
  - destruct (isspace c) eqn:Hc.
    + exists (c :: lead). split; [by rewrite Hs at 1 | by constructor].
    + by exists [].
Qed.

Lemma lstrip_head s : (isspace <$> head (lstrip s)) <> Some true.
Proof.
  induction s as [|c s IH]; simpl; [done|].
  destruct (isspace c) eqn:Hc; [done|]. simpl. by rewrite Hc.
Qed.

Lemma rstrip_split s :
  exists tail, s = rstrip s ++ tail /\ Forall (fun c => isspace c = true) tail.
Proof.
  unfold rstrip. destruct (lstrip_split (reverse s)) as (lead & Hs & Hlead).
  exists (reverse lead). split; [|by apply Forall_reverse].
  rewrite <- reverse_app, <- Hs. by rewrite reverse_involutive.
Qed.

Lemma rstrip_last s : (isspace <$> last (rstrip s)) <> Some true.
Proof. unfold rstrip. rewrite last_reverse. apply lstrip_head. Qed.

(** Stripping the right end leaves a non-blank left end alone. *)
Lemma rstrip_head s :
  (isspace <$> head s) <> Some true -> (isspace <$> head (rstrip s)) <> Some true.
Proof.
  intros Hs. destruct (rstrip_split s) as (tail & Heq & _).
  destruct (rstrip s) as [|c r]; [done|].
  rewrite Heq in Hs. exact Hs.
Qed.

Lemma strip_stripped s : stripped_of (strip s) s.
Proof.
  unfold strip. split; [|split].
  - destruct (lstrip_split s) as (lead & Hs & Hlead).
    destruct (rstrip_split (lstrip s)) as (tail & Ht & Htail).
    exists lead, tail. by rewrite <- Ht.
  - apply rstrip_head, lstrip_head.
  - apply rstrip_last.
Qed.

Lemma reverse_cons_nonempty c (cur : str) : reverse (c :: cur) <> [].
Proof. rewrite reverse_cons. by destruct (reverse cur). Qed.

Lemma split_aux_words cur s :
  Forall (fun c => isspace c = false) cur -> Forall word (split_aux cur s).
Proof.
  revert cur; induction s as [|c s IH]; intros cur Hcur; simpl.
  - destruct cur as [|d cur]; [constructor|].
    repeat constructor; [apply reverse_cons_nonempty | by apply Forall_reverse].
  - destruct (isspace c) eqn:Hc.
    + destruct cur as [|d cur]; [by apply IH|].
      constructor; [|by apply IH].
      split; [apply reverse_cons_nonempty | by apply Forall_reverse].
    + apply IH. by constructor.
Qed.

Lemma split_words s : Forall word (split s).
Proof. by apply split_aux_words. Qed.

(** Scanning through a run without whitespace only grows the word. *)
Lemma split_aux_run w cur rest :
  Forall (fun c => isspace c = false) w ->
  split_aux cur (w ++ rest) = split_aux (reverse w ++ cur) rest.
Proof.
  intros Hw; revert cur; induction Hw as [|c w Hc _ IH]; intros cur; [done|].
  simpl. rewrite Hc, IH, reverse_cons. by rewrite <- app_assoc.
Qed.

Lemma reverse_word w :
  word w -> exists d cur, reverse w = d :: cur /\ reverse (d :: cur) = w.
Proof.
  intros [Hne _]. destruct (reverse w) as [|d cur] eqn:E.
  - apply (f_equal reverse) in E. by rewrite reverse_involutive in E.
  - exists d, cur. split; [done|]. by rewrite <- E, reverse_involutive.
Qed.

Lemma split_aux_last w : word w -> split_aux [] w = [w].
Proof.
  intros Hw. destruct (reverse_word w Hw) as (d & cur & E & E').
  pose proof (split_aux_run w [] [] (proj2 Hw)) as Hrun.
  rewrite !app_nil_r in Hrun. rewrite Hrun, E. simpl. by rewrite E'.
Qed.

Lemma split_aux_sep w c rest :
  word w -> isspace c = true ->
  split_aux [] (w ++ c :: rest) = w :: split_aux [] rest.
Proof.
  intros Hw Hc. destruct (reverse_word w Hw) as (d & cur & E & E').
  rewrite split_aux_run, app_nil_r by apply Hw.
  rewrite E. simpl. by rewrite Hc, E'.
Qed.

Lemma join_cons_cons sep w w2 ws :
  join sep (w :: w2 :: ws) = w ++ sep ++ join sep (w2 :: ws).
Proof. reflexivity. Qed.

Lemma split_join ws : Forall word ws -> split (join (lit " ") ws) = ws.
Proof.
  unfold split. induction 1 as [|w ws Hw Hws IH]; [done|].
  destruct ws as [|w2 ws]; [by apply split_aux_last|].
  rewrite join_cons_cons. change (lit " " ++ ?r) with (0x20 :: r).
  rewrite split_aux_sep by done. by rewrite IH.
Qed.

Lemma elem_of_join c ws :
  c ∈ join (lit " ") ws -> c = 0x20 \/ exists w, w ∈ ws /\ c ∈ w.
Proof.
  induction ws as [|w ws IH]; [by intros ?%elem_of_nil|].
  destruct ws as [|w2 ws].
  - intros Hc. right. exists w. split; [apply elem_of_cons; by left | done].
  - rewrite join_cons_cons. change (lit " " ++ ?r) with (0x20 :: r).
    rewrite elem_of_app, elem_of_cons. intros [Hc|[Hc|Hc]].
    + right. exists w. split; [apply elem_of_cons; by left | done].
    + by left.
    + destruct (IH Hc) as [->|(w' & Hw' & Hcw)]; [by left|].
      right. exists w'. split; [apply elem_of_cons; by right | done].
Qed.

Lemma join_only_spaces ws : Forall word ws -> only_spaces (join (lit " ") ws).
Proof.
  intros Hws c [->|(w & Hw & Hc)]%elem_of_join Hsp; [done|].
  rewrite Forall_forall in Hws. destruct (Hws w Hw) as [_ Hns].
  rewrite Forall_forall in Hns. rewrite (Hns c Hc) in Hsp. done.
Qed.

Lemma join_head ws :
  Forall word ws -> (isspace <$> head (join (lit " ") ws)) <> Some true.
Proof.
  destruct 1 as [|w ws [Hne Hw] _]; simpl; [done|].
  destruct w as [|c w]; [done|]. apply Forall_cons in Hw as [Hc _].
  destruct ws; simpl; by rewrite Hc.
Qed.

Lemma spaced_run w r :
  Forall (fun c => isspace c = false) w -> spaced (w ++ r) = spaced r.
Proof.
  induction 1 as [|c w Hc _ IH]; [done|].
  cbn [app spaced]. destruct (w ++ r) as [|b l]; [exact IH|].
  rewrite Hc. exact IH.
Qed.

Lemma join_spaced ws : Forall word ws -> spaced (join (lit " ") ws) = true.
Proof.
  induction 1 as [|w ws [Hne Hw] Hws IH]; [done|].
  destruct ws as [|w2 ws].
  - simpl. rewrite <- (app_nil_r w). by rewrite spaced_run.
  - rewrite join_cons_cons. change (lit " " ++ ?r) with (0x20 :: r).
    rewrite spaced_run by done. pose proof (join_head _ Hws) as Hhd.
    revert IH Hhd. generalize (join (lit " ") (w2 :: ws)). intros [|b r]; [done|].
    cbn. intros -> Hb. by destruct (isspace b).
Qed.

Lemma spaced_lookup r : spaced r = true -> no_adjacent_whitespace r.
Proof.
  induction r as [|x r IH]; intros Hr i a b Ha Hb; [done|].
  simpl in Hr. destruct r as [|y r]; [done|].
  apply andb_prop in Hr as [Hxy Hr].
  destruct i as [|i]; simpl in Ha, Hb.
  - injection Ha as <-. injection Hb as <-. by apply negb_true_iff.
  - by apply (IH Hr i).
Qed.

End Strings.

Example strip_sample :
  strip ([0x0A; 0x20] ++ lit "You are" ++ [0x09; 0x0A]) = lit "You are".
Proof. reflexivity. Qed.

Example split_sample :
  split (lit " a" ++ [0x0A; 0x0A] ++ lit "b  c" ++ [0xA0; 0x1C] ++ lit "d ")
  = [lit "a"; lit "b"; lit "c"; lit "d"].
Proof. reflexivity. Qed.

(** [format(x, ".4f")] on a tie-free value, on a negative zero, on a
    value that rounds up and on an integer. *)
Example format_4f_samples :
  format_4f cost_0_0123 = lit "0.0123"
  /\ format_4f (S754_zero true) = lit "-0.0000"
  /\ format_4f (S754_finite false 7378697629483821 (-67)) = lit "0.0001"
  /\ format_4f (S754_finite false 2714843412706833 (-41)) = lit "1234.5678"
  /\ format_4f (S754_finite false 3 0) = lit "3.0000".
Proof. by vm_compute. Qed.

(** C4. Collapsing whitespace, as [run_agent] does with
    [" ".join(custom_instructions.split())], gives one line: the result
    holds no newline, its only whitespace characters are single spaces with
    no whitespace next to them, and collapsing it again changes nothing. *)
Theorem collapse_whitespace_one_line (s : str) :
  let r := join (lit " ") (split s) in
  (0x0A ∉ r)
  /\ only_spaces r
  /\ no_adjacent_whitespace r
  /\ join (lit " ") (split r) = r.
Proof.
  intros r. pose proof (split_words s) as Hws.
  assert (Hsp : only_spaces r) by by apply join_only_spaces.
  repeat split; [| done | |].
  - intros Hnl. by specialize (Hsp _ Hnl eq_refl).
  - by apply spaced_lookup, join_spaced.
  - subst r. by rewrite split_join.
Qed.

(** ** Running computations *)

Section Running.

Context {A : Type}.
Implicit Types (st : state) (evs : list event).

Lemma add_events_nil st : add_events [] st = st.
Proof. destruct st. unfold add_events. simpl. by rewrite app_nil_r. Qed.

Lemma add_events_app evs evs' st :
  add_events evs' (add_events evs st) = add_events (evs ++ evs') st.
Proof. unfold add_events. simpl. by rewrite app_assoc. Qed.

Lemma emitted_spec (m : M A) st evs :
  trace (m st).2 = trace st ++ evs -> emitted m st = evs.
Proof. unfold emitted. intros ->. apply drop_app_length. Qed.

Lemma emitted_add_events (m : M A) st r evs :
  m st = (r, add_events evs st) -> emitted m st = evs.
Proof. intros E. apply emitted_spec. by rewrite E. Qed.

Lemma grows_trace (m : M A) st :
  grows m -> trace (m st).2 = trace st ++ emitted m st.
Proof.
  intros Hm. destruct (Hm st) as [evs E].
  by rewrite (emitted_spec _ _ _ E).
Qed.

End Running.

Lemma grows_bind {A B} (m : M A) (k : A -> M B) :
  grows m -> (forall a, grows (k a)) -> grows (bind m k).
Proof.
  intros Hm Hk st. unfold bind. specialize (Hm st).
  destruct (m st) as [[a|e] st']; simpl in *; [|done].
  by etrans; [|apply Hk].
Qed.

(** What a sequence emits: the first part, then the second if the first
    returned. *)
Lemma emitted_bind {A B} (m : M A) (k : A -> M B) st :
  grows m -> (forall a, grows (k a)) ->
  emitted (bind m k) st =
    emitted m st ++
    match m st with
    | (Return a, st') => emitted (k a) st'
    | (Raise _, _) => []
    end.
Proof.
  intros Hm Hk. apply emitted_spec.
  pose proof (grows_trace m st Hm) as E. unfold bind.
  destruct (m st) as [[a|e] st']; simpl in *.
  - by rewrite (grows_trace (k a) st' (Hk a)), E, app_assoc.
  - by rewrite app_nil_r.
Qed.

Lemma grows_emit e : grows (emit e).
Proof. intros st. by exists [e]. Qed.

Lemma grows_setenv name value : grows (setenv name value).
Proof. intros st. by exists []; rewrite app_nil_r. Qed.

(** ** The response loop *)

Lemma on_block_run block st :
  on_block block st =
    (Return tt,
     add_events (map (fun t => Echo t false) (omap text_of [block])) st).
Proof. destruct block; simpl; by rewrite ?add_events_nil. Qed.

Lemma blocks_run content st :
  for_each content on_block st =
    (Return tt, add_events (map (fun t => Echo t false) (omap text_of content)) st).
Proof.
  revert st; induction content as [|block content IH]; intros st.
  - simpl. by rewrite add_events_nil.
  - cbn [for_each]. unfold bind.
    rewrite on_block_run, IH, add_events_app, <- map_app, <- omap_app.
    done.
Qed.

Lemma on_message_run message st :
  on_message message st = (Return tt, add_events (message_output message) st).
Proof.
  destruct message as [| content | | [c|] |];
    try (simpl; by rewrite add_events_nil).
  - apply blocks_run.
  - simpl. destruct (float_bool c); [done | by rewrite add_events_nil].
Qed.

Lemma messages_run msgs st :
  for_each msgs on_message st =
    (Return tt, add_events (concat (map message_output msgs)) st).
Proof.
  revert st; induction msgs as [|message msgs IH]; intros st.
  - simpl. by rewrite add_events_nil.
  - cbn [for_each map concat]. unfold bind.
    by rewrite on_message_run, IH, add_events_app.
Qed.

Lemma response_loop_run sc st :
  response_loop sc st =
    (match response_error sc with None => Return tt | Some e => Raise e end,
     add_events (concat (map message_output (response sc))) st).
Proof.
  unfold response_loop, bind. rewrite messages_run.
  by destruct (response_error sc).
Qed.

Lemma stdout_of_echo (l : list str) :
  omap stdout_of (map (fun t => Echo t false) l) = l.
Proof. induction l as [|t l IH]; [done|]. simpl. f_equal. exact IH. Qed.

Lemma stdout_of_output msgs :
  omap stdout_of (concat (map message_output msgs)) = text_segments msgs.
Proof.
  unfold text_segments. induction msgs as [|message msgs IH]; [done|].
  cbn [map concat]. rewrite omap_app, IH. f_equal.
  destruct message as [| content | | [c|] |]; try done.
  - apply stdout_of_echo.
  - simpl. by destruct (float_bool c).
Qed.

(** C1. Whatever stream the response loop of [run_agent] consumes, what it
    prints is, message by message, the text of each text block of each
    assistant message (and the cost line of a result message); other
    blocks and other messages print nothing, and standard output receives
    exactly the text segments in stream order. *)
Theorem response_loop_prints_text_blocks (sc : Script) (st : state) :
  emitted (response_loop sc) st = concat (map message_output (response sc))
  /\ omap stdout_of (emitted (response_loop sc) st) = text_segments (response sc).
Proof.
  assert (E : emitted (response_loop sc) st
              = concat (map message_output (response sc))).
  { eapply emitted_add_events, response_loop_run. }
  split; [done|]. rewrite E. apply stdout_of_output.
Qed.

(** C2, as the code has it. When the stream ends with a result message
    whose cost is present and not zero, the last thing the loop prints is
    the cost summary line, on standard error, and every text segment of the
    stream is printed before it; when the cost is absent or zero, that
    message prints nothing, and the text segments are all there is. *)
Theorem cost_line_printed_last (sc : Script) (st : state)
    (msgs : list Message) (total_cost_usd : option float) :
  response sc = msgs ++ [ResultMessage total_cost_usd] ->
  emitted (response_loop sc) st
    = concat (map message_output msgs)
      ++ match total_cost_usd with
         | None | Some (S754_zero _) => []
         | Some c => [Echo (cost_line c) true]
         end
  /\ omap stdout_of (concat (map message_output msgs))
     = text_segments (response sc).
Proof.
  intros Hsc. split.
  - rewrite (emitted_add_events _ _ _ _ (response_loop_run sc st)), Hsc.
    rewrite map_app, concat_app. f_equal.
    by destruct total_cost_usd as [[]|].
  - rewrite stdout_of_output, Hsc. unfold text_segments.
    rewrite map_app, concat_app. simpl. by rewrite app_nil_r.
Qed.

Lemma cost_line_printed_last_witness :
  emitted (response_loop script_ok) (fresh None)
    = concat (map message_output
                [ SystemMessage (lit "init");
                  AssistantMessage
                    [ ThinkingBlock (lit "list the diagnostics first");
                      TextBlock (lit "Found 3 style diagnostics.");
                      ToolUseBlock (lit "mcp__techdebt__extract_style_diagnostics") ];
                  AssistantMessage [ TextBlock (lit "Done.") ] ])
      ++ [Echo (cost_line cost_0_0123) true]
  /\ omap stdout_of
       (concat (map message_output
                [ SystemMessage (lit "init");
                  AssistantMessage
                    [ ThinkingBlock (lit "list the diagnostics first");
                      TextBlock (lit "Found 3 style diagnostics.");
                      ToolUseBlock (lit "mcp__techdebt__extract_style_diagnostics") ];
                  AssistantMessage [ TextBlock (lit "Done.") ] ]))
     = text_segments (response script_ok).
Proof.
  apply (cost_line_printed_last script_ok (fresh None) _ (Some cost_0_0123)).
  reflexivity.
Defined.

(** C2, as the claim has it, fails: a stream that ends with a result
    message without a cost gets no cost line; nothing reaches standard
    error. *)
Lemma cost_line_absent_without_cost :
  last (response script_no_cost) = Some (ResultMessage None)
  /\ emitted (response_loop script_no_cost) (fresh None)
     = [Echo (lit "Done.") false]
  /\ omap stderr_of (emitted (response_loop script_no_cost) (fresh None)) = [].
Proof. by vm_compute. Qed.

(** A cost of zero is not shown either. *)
Example cost_line_absent_for_zero_cost :
  emitted (response_loop script_zero_cost) (fresh None)
  = [Echo (lit "Done.") false].
Proof. by vm_compute. Qed.

(** The cost is shown with four decimals. *)
Example cost_line_0_0123 :
  cost_line cost_0_0123 = [0x0A] ++ lit "[Cost: $0.0123]".
Proof. reflexivity. Qed.

(** ** The prompt loader *)

(** C3. [load_system_prompt] strips the leading marker: a template that
    starts with [system:] yields what follows its first seven characters,
    with the whitespace at both ends removed; any other template is
    returned as it is. *)
Theorem load_system_prompt_strips_marker (H : Host) (content : str) (st : state) :
  prompty_content H = Return content ->
  exists r,
    load_system_prompt H st = (Return r, st)
    /\ if startswith content (lit "system:")
       then content = lit "system:" ++ drop 7 content
            /\ r = strip (drop 7 content)
            /\ stripped_of r (drop 7 content)
       else r = content.
Proof.
  intros Hc. unfold load_system_prompt, bind, lift. rewrite Hc.
  destruct (startswith content (lit "system:")) eqn:Hm; eexists; (split; [done|]).
  - split; [by apply startswith_app in Hm | split; [done | apply strip_stripped]].
  - done.
Qed.

Lemma load_system_prompt_strips_marker_witness :
  exists r,
    load_system_prompt (host_of script_ok) (fresh None) = (Return r, fresh None)
    /\ if startswith sample_template (lit "system:")
       then sample_template = lit "system:" ++ drop 7 sample_template
            /\ r = strip (drop 7 sample_template)
            /\ stripped_of r (drop 7 sample_template)
       else r = sample_template.
Proof.
  apply (load_system_prompt_strips_marker (host_of script_ok)). reflexivity.
Defined.

Example load_system_prompt_sample :
  (load_system_prompt (host_of script_ok) (fresh None)).1
  = Return (lit "You are a .NET expert." ++ [0x0A; 0x0A] ++ lit "  Use the tools.").
Proof. reflexivity. Qed.

(** ** The agent runner *)

Lemma emit_run e st : emit e st = (Return tt, add_events [e] st).
Proof. reflexivity. Qed.

Lemma session_run sc options query st :
  with_client sc options (client_query sc query;; response_loop sc) st
  = (session_outcome sc, add_events (session_events sc options query) st).
Proof.
  unfold with_client, client_query, session_outcome, session_events, bind.
  rewrite emit_run.
  destruct (connect_error sc) as [e|]; [done|].
  rewrite emit_run, add_events_app.
  destruct (query_error sc) as [e|].
  - unfold raise, lift. by rewrite emit_run, add_events_app.
  - unfold ret. rewrite response_loop_run, emit_run, !add_events_app.
    unfold lift. reflexivity.
Qed.

Lemma run_agent_run H query wd st :
  match prompty_content H with
  | Raise e => run_agent H query wd st = (Raise e, st)
  | Return content =>
      exists options,
        allowed_tools options
        = [ lit "mcp__techdebt__extract_style_diagnostics";
            lit "mcp__techdebt__extract_analyzers_diagnostics" ]
        /\ run_agent H query wd st
           = (session_outcome (sdk H),
              add_events (session_events (sdk H) options query) st)
  end.
Proof.
  unfold run_agent, bind at 1. unfold load_system_prompt, bind at 1, lift.
  destruct (prompty_content H) as [content|e]; [|done].
  destruct (startswith content (lit "system:"));
    (eexists; split; [|apply session_run]; reflexivity).
Qed.

Lemma grows_run_agent H query wd : grows (run_agent H query wd).
Proof.
  intros st. pose proof (run_agent_run H query wd st) as Hrun.
  destruct (prompty_content H) as [content|e].
  - destruct Hrun as (options & _ & ->). by eexists.
  - rewrite Hrun. by exists []; rewrite app_nil_r.
Qed.

(** C5. In every invocation of [run_agent] every configuration object
    handed to the agent client (there is one, unless the prompt fails to
    load) permits the two diagnostics tools and nothing else. *)
Theorem run_agent_allowed_tools (H : Host) (query wd : str) (st : state) :
  allowed_tools <$> omap options_of (emitted (run_agent H query wd) st)
  = match prompty_content H with
    | Return _ =>
        [ [ lit "mcp__techdebt__extract_style_diagnostics";
            lit "mcp__techdebt__extract_analyzers_diagnostics" ] ]
    | Raise _ => []
    end.
Proof.
  pose proof (run_agent_run H query wd st) as Hrun.
  destruct (prompty_content H) as [content|e].
  - destruct Hrun as (options & Htools & Hrun).
    rewrite (emitted_add_events _ _ _ _ Hrun). unfold session_events.
    cbn [omap list_omap options_of fmap list_fmap]. rewrite Htools. f_equal.
    destruct (connect_error (sdk H)); [done|].
    cbn [omap list_omap options_of query_of]. rewrite omap_app. simpl.
    rewrite app_nil_r. destruct (query_error (sdk H)); [done|].
    induction (response (sdk H)) as [|message msgs IH]; [done|].
    cbn [map concat]. rewrite omap_app, fmap_app, IH, app_nil_r.
    destruct message as [| content' | | [c|] |]; try done.
    + by induction content' as [|[] ? ?].
    + simpl. by destruct (float_bool c).
  - by rewrite (emitted_add_events _ _ (Raise e) [])
      by (by rewrite add_events_nil).
Qed.

(** ** Logging setup *)

Lemma setup_logging_no_tempdir H st :
  tempdir_found H = false -> setup_logging H st = (Raise FileNotFoundError, st).
Proof.
  intros Hf. unfold setup_logging, tempfile_gettempdir, bind, getenv, raise.
  by rewrite Hf.
Qed.

Lemma setup_logging_run H st :
  tempdir_found H = true ->
  if can_open H (log_path H) then
    match console_level H st with
    | Return l =>
        exists fh ch,
          (kind fh = RotatingFileHandler (log_path H) (5 * 1024 * 1024) 3
           /\ level fh = DEBUG)
          /\ (kind ch = StreamHandler /\ level ch = l)
          /\ setup_logging H st
             = (Return (log_path H),
                {| environ := environ st;
                   root := {| handlers := [fh; ch]; logger_level := DEBUG |};
                   trace := trace st ++ [OpenLog (log_path H)] |})
    | Raise e => setup_logging H st = (Raise e, cleared H st)
    end
  else setup_logging H st = (Raise OSError, cleared H st).
Proof.
  intros Hfound.
  unfold setup_logging, console_level, cleared, new_RotatingFileHandler.
  unfold tempfile_gettempdir. rewrite Hfound.
  unfold bind, getenv, get_root, set_root, emit, setLevel, lift, ret, raise.
  fold (log_path H). cbn -[log_path checkLevel getattr_logging upper lit N.mul].
  destruct (can_open H (log_path H)); [|done].
  cbn -[log_path checkLevel getattr_logging upper lit N.mul].
  destruct (checkLevel _) as [l|e]; [|done].
  by repeat eexists.
Qed.

(** Split on whether a temporary directory is found, with what
    [setup_logging] does in either case as [Hrun]. *)
Ltac setup_logging_cases H st Hrun :=
  let Hfound := fresh "Hfound" in
  destruct (tempdir_found H) eqn:Hfound;
  [ pose proof (setup_logging_run H st Hfound) as Hrun
  | pose proof (setup_logging_no_tempdir H st Hfound) as Hrun ].

Lemma grows_setup_logging H : grows (setup_logging H).
Proof.
  intros st. setup_logging_cases H st Hrun.
  2:{ rewrite Hrun. by exists []; rewrite app_nil_r. }
  exists [OpenLog (log_path H)].
  destruct (can_open H (log_path H)); [|by rewrite Hrun].
  destruct (console_level H st); [|by rewrite Hrun].
  by destruct Hrun as (fh & ch & _ & _ & ->).
Qed.

(** C6. Whatever handlers the root logger had, once [setup_logging] has
    returned, after one call or after any number of calls in a row, the
    root logger has exactly two: a rotating file handler on [tda.log] in
    the temporary directory, and a console stream handler. *)
Theorem setup_logging_two_handlers (H : Host) (n : nat) (st st' : state)
    (path : str) :
  setup_logging_times H n st = (Return path, st') ->
  path = path_join (gettempdir H) (lit "tda.log")
  /\ exists fh ch,
       handlers (root st') = [fh; ch]
       /\ kind fh = RotatingFileHandler path (5 * 1024 * 1024) 3
       /\ kind ch = StreamHandler.
Proof.
  revert st. induction n as [|n IH]; intros st; cbn [setup_logging_times].
  - setup_logging_cases H st Hrun; [|by rewrite Hrun].
    destruct (can_open H (log_path H)); [|by rewrite Hrun].
    destruct (console_level H st); [|by rewrite Hrun].
    destruct Hrun as (fh & ch & [Hfh _] & [Hch _] & ->).
    intros [= <- <-]. split; [done|]. by exists fh, ch.
  - unfold bind. destruct (setup_logging H st) as [[p|e] st1]; [|done].
    apply IH.
Qed.

Lemma setup_logging_two_handlers_witness :
  lit "/tmp/tda.log" = path_join (gettempdir (host_of script_ok)) (lit "tda.log")
  /\ exists fh ch,
       handlers (root (setup_logging_times (host_of script_ok) 2 configured).2)
       = [fh; ch]
       /\ kind fh = RotatingFileHandler (lit "/tmp/tda.log") (5 * 1024 * 1024) 3
       /\ kind ch = StreamHandler.
Proof.
  apply (setup_logging_two_handlers (host_of script_ok) 2 configured).
  vm_compute. reflexivity.
Defined.

(** A level name that is no attribute of [logging] falls back to INFO on
    the console, and the file handler stays at DEBUG. *)
Lemma console_level_fallback H st :
  assoc (upper H (default (lit "INFO") (environ st !! lit "TDA_LOG_LEVEL")))
        logging_attrs = None ->
  console_level H st = Return INFO.
Proof. unfold console_level, getattr_logging. by intros ->. Qed.

Lemma setup_logging_levels H st path st' :
  setup_logging H st = (Return path, st') ->
  exists fh ch,
    handlers (root st') = [fh; ch]
    /\ level fh = DEBUG
    /\ console_level H st = Return (level ch).
Proof.
  setup_logging_cases H st Hrun; [|by rewrite Hrun].
  destruct (can_open H (log_path H)); [|by rewrite Hrun].
  destruct (console_level H st); [|by rewrite Hrun].
  destruct Hrun as (fh & ch & [_ Hfh] & [_ Hch] & ->).
  intros [= <- <-]. exists fh, ch. by rewrite Hch.
Qed.

Example console_level_unknown :
  console_level (host_of script_ok) (fresh (Some (lit "verbose"))) = Return INFO.
Proof. reflexivity. Qed.

Example console_level_warning :
  console_level (host_of script_ok) (fresh (Some (lit "Warning"))) = Return WARNING.
Proof. reflexivity. Qed.

(** C9 fails on the code. [TDA_LOG_LEVEL=basic_format] names no level, yet
    [logging.BASIC_FORMAT] exists: with a temporary directory found and the
    log file open, [getattr] finds the format string in place of the INFO
    default, [setLevel] rejects it, and [setup_logging] raises
    [ValueError] with the root logger's handlers already cleared. *)
Theorem setup_logging_raises_on_basic_format (H : Host) (st : state) :
  environ st !! lit "TDA_LOG_LEVEL" = Some (lit "basic_format") ->
  tempdir_found H = true ->
  can_open H (log_path H) = true ->
  assoc (lit "BASIC_FORMAT") nameToLevel = None
  /\ setup_logging H st = (Raise ValueError, cleared H st)
  /\ handlers (root (setup_logging H st).2) = [].
Proof.
  intros Henv Hfound Hopen. pose proof (setup_logging_run H st Hfound) as Hrun.
  rewrite Hopen in Hrun. unfold console_level in Hrun. rewrite Henv in Hrun.
  change (checkLevel _) with (@Raise N ValueError) in Hrun.
  by rewrite Hrun.
Qed.

Lemma setup_logging_raises_on_basic_format_witness :
  assoc (lit "BASIC_FORMAT") nameToLevel = None
  /\ setup_logging (host_of script_ok) (fresh (Some (lit "basic_format")))
     = (Raise ValueError,
        cleared (host_of script_ok) (fresh (Some (lit "basic_format"))))
  /\ handlers
       (root (setup_logging (host_of script_ok)
                (fresh (Some (lit "basic_format")))).2) = [].
Proof.
  apply (setup_logging_raises_on_basic_format (host_of script_ok)
           (fresh (Some (lit "basic_format")))); reflexivity.
Defined.

(** ** One query per session *)

Lemma omap_output {B} (f : event -> option B) msgs :
  (forall message err, f (Echo message err) = None) ->
  omap f (concat (map message_output msgs)) = [].
Proof.
  intros Hf. induction msgs as [|message msgs IH]; [done|].
  cbn [map concat]. rewrite omap_app, IH, app_nil_r.
  destruct message as [| content | | [c|] |]; try done.
  - cbn [message_output]. induction (omap text_of content) as [|t l IHl]; [done|].
    cbn [map omap list_omap]. rewrite Hf. exact IHl.
  - simpl. destruct (float_bool c); [|done]. simpl. by rewrite Hf.
Qed.

(** C8, as the code has it. An invocation of [run_agent] submits the
    user's query once and nothing else when the prompt loads and the
    session opens, and submits nothing otherwise: never a second query,
    never a retry. *)
Theorem run_agent_submits_one_query (H : Host) (query wd : str) (st : state) :
  omap query_of (emitted (run_agent H query wd) st)
  = match prompty_content H, connect_error (sdk H) with
    | Return _, None => [query]
    | _, _ => []
    end.
Proof.
  pose proof (run_agent_run H query wd st) as Hrun.
  destruct (prompty_content H) as [content|e].
  - destruct Hrun as (options & _ & Hrun).
    rewrite (emitted_add_events _ _ _ _ Hrun). unfold session_events.
    destruct (connect_error (sdk H)); [done|].
    cbn [omap list_omap options_of query_of]. f_equal.
    rewrite omap_app. simpl. rewrite app_nil_r.
    destruct (query_error (sdk H)); [done|]. by apply omap_output.
  - by rewrite (emitted_add_events _ _ (Raise e) [])
      by (by rewrite add_events_nil).
Qed.

(** C8, as the claim has it, fails: when the session cannot be opened the
    invocation submits no query at all. *)
Lemma run_agent_no_query_without_session :
  connect_error (sdk (host_of script_no_session)) = Some SDKError
  /\ omap query_of
       (emitted (run_agent (host_of script_no_session)
                   (lit "Summarise the style diagnostics") (lit "."))
                (fresh None)) = [].
Proof. by vm_compute. Qed.

(** ** The entry point *)

Lemma emitted_setup_logging H st :
  emitted (setup_logging H) st
  = if tempdir_found H then [OpenLog (log_path H)] else [].
Proof.
  apply emitted_spec. setup_logging_cases H st Hrun.
  2:{ rewrite Hrun. simpl. by rewrite app_nil_r. }
  destruct (can_open H (log_path H)); [|by rewrite Hrun].
  destruct (console_level H st); [|by rewrite Hrun].
  by destruct Hrun as (fh & ch & _ & _ & ->).
Qed.

Lemma main_run H query wd st :
  main H query wd st =
    match setup_logging H st with
    | (Raise e, st1) => (Raise e, st1)
    | (Return log_file, st1) =>
        match run_agent H query wd (setenv (lit "TDA_LOG_FILE") log_file st1).2 with
        | (Raise e, st3) => (Raise e, st3)
        | (Return _, st3) =>
            (Return tt, add_events [Echo (lit "Logs: " ++ log_file) true] st3)
        end
    end.
Proof.
  unfold main, bind. destruct (setup_logging H st) as [[log_file|e] st1]; [|done].
  cbn [setenv snd]. by destruct (run_agent _ _ _ _) as [[[]|e] st3].
Qed.

Lemma main_emitted H query wd st :
  emitted (main H query wd) st =
    emitted (setup_logging H) st ++
    match setup_logging H st with
    | (Raise _, _) => []
    | (Return log_file, st1) =>
        let st2 := (setenv (lit "TDA_LOG_FILE") log_file st1).2 in
        emitted (run_agent H query wd) st2 ++
        match (run_agent H query wd st2).1 with
        | Return _ => [Echo (lit "Logs: " ++ log_file) true]
        | Raise _ => []
        end
    end.
Proof.
  unfold main. rewrite emitted_bind; [|apply grows_setup_logging|].
  2:{ intros log_file. apply grows_bind; [apply grows_setenv|]. intros _.
      apply grows_bind; [apply grows_run_agent|]. intros _. apply grows_emit. }
  f_equal. destruct (setup_logging H st) as [[log_file|e] st1]; [|done].
  rewrite emitted_bind; [|apply grows_setenv|].
  2:{ intros _. apply grows_bind; [apply grows_run_agent|]. intros _.
      apply grows_emit. }
  rewrite (emitted_spec (setenv _ _) st1 []) by (simpl; by rewrite app_nil_r).
  cbn [app setenv snd]. cbv zeta.
  rewrite emitted_bind; [|apply grows_run_agent|intros _; apply grows_emit].
  f_equal. destruct (run_agent _ _ _ _) as [[[]|e] st3]; [|done].
  simpl. by apply emitted_spec.
Qed.

Example main_trace_sample :
  emitted (main (host_of script_ok) (lit "Summarise the style diagnostics") (lit "."))
          (fresh None)
  = [ OpenLog (lit "/tmp/tda.log");
      Connect
        {| mcp_servers := [(lit "techdebt", techdebt_server)];
           allowed_tools :=
             [ lit "mcp__techdebt__extract_style_diagnostics";
               lit "mcp__techdebt__extract_analyzers_diagnostics" ];
           cwd := lit ".";
           permission_mode := lit "acceptEdits";
           system_prompt :=
             {| sp_type := lit "preset";
                sp_preset := lit "claude_code";
                sp_append := lit "You are a .NET expert. Use the tools." |} |};
      Query (lit "Summarise the style diagnostics");
      Echo (lit "Found 3 style diagnostics.") false;
      Echo (lit "Done.") false;
      Echo ([0x0A] ++ lit "[Cost: $0.0123]") true;
      Disconnect;
      Echo (lit "Logs: /tmp/tda.log") true ].
Proof. by vm_compute. Qed.

(** ** Standard output and standard error *)

Lemma stderr_of_echo (l : list str) :
  omap stderr_of (map (fun t => Echo t false) l) = [].
Proof. induction l as [|t l IH]; [done|]. exact IH. Qed.

Lemma stderr_of_output msgs :
  omap stderr_of (concat (map message_output msgs)) = omap cost_of msgs.
Proof.
  induction msgs as [|message msgs IH]; [done|].
  cbn [map concat]. rewrite omap_app, IH.
  destruct message as [| content | | [c|] |]; try done.
  - cbn [message_output]. by rewrite stderr_of_echo.
  - simpl. by destruct (float_bool c).
Qed.

Lemma session_stdout sc options query :
  omap stdout_of (session_events sc options query) = text_segments (consumed sc).
Proof.
  unfold session_events, consumed. cbn [omap list_omap stdout_of].
  destruct (connect_error sc); [done|]. cbn [omap list_omap stdout_of].
  rewrite omap_app. simpl. rewrite app_nil_r.
  destruct (query_error sc); [done|]. apply stdout_of_output.
Qed.

Lemma session_stderr sc options query :
  omap stderr_of (session_events sc options query) = omap cost_of (consumed sc).
Proof.
  unfold session_events, consumed. cbn [omap list_omap stderr_of].
  destruct (connect_error sc); [done|]. cbn [omap list_omap stderr_of].
  rewrite omap_app. simpl. rewrite app_nil_r.
  destruct (query_error sc); [done|]. apply stderr_of_output.
Qed.

Lemma setup_logging_returns H st path st' :
  setup_logging H st = (Return path, st') -> path = log_path H.
Proof.
  setup_logging_cases H st Hrun; [|by rewrite Hrun].
  destruct (can_open H (log_path H)); [|by rewrite Hrun].
  destruct (console_level H st); [|by rewrite Hrun].
  destruct Hrun as (fh & ch & _ & _ & ->). by intros [= <- _].
Qed.

(** [setup_logging] returns exactly when logging can be set up. *)
Lemma setup_logging_ready H st :
  if logging_ready H st
  then exists st1, setup_logging H st = (Return (log_path H), st1)
  else exists e st1, setup_logging H st = (Raise e, st1).
Proof.
  unfold logging_ready. setup_logging_cases H st Hrun; [|simpl; eauto].
  destruct (can_open H (log_path H)); [|simpl; eauto].
  destruct (console_level H st); [|simpl; eauto].
  destruct Hrun as (fh & ch & _ & _ & ->). simpl. eauto.
Qed.

Lemma run_agent_outcome H query wd st :
  (run_agent H query wd st).1
  = match prompty_content H with
    | Raise e => Raise e
    | Return _ => session_outcome (sdk H)
    end.
Proof.
  pose proof (run_agent_run H query wd st) as Hrun.
  destruct (prompty_content H) as [content|e].
  - by destruct Hrun as (options & _ & ->).
  - by rewrite Hrun.
Qed.

Lemma run_agent_streams H query wd st :
  omap stdout_of (emitted (run_agent H query wd) st)
  = text_segments
      match prompty_content H with
      | Return _ => consumed (sdk H)
      | Raise _ => []
      end
  /\ omap stderr_of (emitted (run_agent H query wd) st)
     = omap cost_of
         match prompty_content H with
         | Return _ => consumed (sdk H)
         | Raise _ => []
         end.
Proof.
  pose proof (run_agent_run H query wd st) as Hrun.
  destruct (prompty_content H) as [content|e].
  - destruct Hrun as (options & _ & Hrun).
    rewrite (emitted_add_events _ _ _ _ Hrun).
    by rewrite session_stdout, session_stderr.
  - by rewrite (emitted_spec _ _ []) by (rewrite Hrun; simpl; by rewrite app_nil_r).
Qed.

(** [main] returns exactly when nothing on its way raises. *)
Lemma main_outcome H query wd st :
  if runs_clean H st
  then (main H query wd st).1 = Return tt
  else exists e, (main H query wd st).1 = Raise e.
Proof.
  rewrite main_run. unfold runs_clean.
  pose proof (setup_logging_ready H st) as Hs.
  destruct (logging_ready H st).
  - destruct Hs as (st1 & ->).
    pose proof (run_agent_outcome H query wd
                  (setenv (lit "TDA_LOG_FILE") (log_path H) st1).2) as Hout.
    destruct (run_agent _ _ _ _) as [[[]|e] st3]; cbn [fst] in Hout;
      destruct (prompty_content H); try discriminate;
      try rewrite <- Hout; simpl; eauto.
  - destruct Hs as (e & st1 & ->). simpl. eauto.
Qed.

Lemma main_stdout H query wd st :
  omap stdout_of (emitted (main H query wd) st) = text_segments (seen H st).
Proof.
  rewrite main_emitted, emitted_setup_logging, omap_app.
  replace (omap stdout_of (if tempdir_found H then [OpenLog (log_path H)] else []))
    with (@nil str) by (by destruct (tempdir_found H)).
  cbn [app]. unfold seen. pose proof (setup_logging_ready H st) as Hs.
  destruct (logging_ready H st).
  - destruct Hs as (st1 & ->). cbv zeta. rewrite omap_app.
    destruct (run_agent_streams H query wd
                (setenv (lit "TDA_LOG_FILE") (log_path H) st1).2) as [-> _].
    destruct (run_agent _ _ _ _).1; simpl; by rewrite app_nil_r.
  - by destruct Hs as (e & st1 & ->).
Qed.

Lemma main_stderr H query wd st :
  omap stderr_of (emitted (main H query wd) st)
  = omap cost_of (seen H st)
    ++ if runs_clean H st then [lit "Logs: " ++ log_path H] else [].
Proof.
  rewrite main_emitted, emitted_setup_logging, omap_app.
  replace (omap stderr_of (if tempdir_found H then [OpenLog (log_path H)] else []))
    with (@nil str) by (by destruct (tempdir_found H)).
  cbn [app]. unfold seen, runs_clean.
  pose proof (setup_logging_ready H st) as Hs.
  destruct (logging_ready H st).
  - destruct Hs as (st1 & ->). cbv zeta. rewrite omap_app.
    destruct (run_agent_streams H query wd
                (setenv (lit "TDA_LOG_FILE") (log_path H) st1).2) as [_ ->].
    rewrite run_agent_outcome. f_equal.
    destruct (prompty_content H); [|done]. by destruct (session_outcome (sdk H)).
  - by destruct Hs as (e & st1 & ->).
Qed.

Lemma cost_line_not_log_path c path : cost_line c <> lit "Logs: " ++ path.
Proof. unfold cost_line. simpl. by intros [=]. Qed.

(** C7, as the code has it. When nothing on the way raises (logging can
    be set up, the prompt loads, the session, the query and the stream go
    through), [main] returns, and what it did is, in this order: configure
    logging, run the agent to the end, print the log path, so that the log
    path line comes after all agent output. When anything on the way
    raises, [main] raises and prints no log path line. *)
Theorem main_prints_log_path_last (H : Host) (query wd : str) (st : state) :
  if runs_clean H st then
    exists options,
      (main H query wd st).1 = Return tt
      /\ emitted (main H query wd) st
         = OpenLog (log_path H) :: Connect options :: Query query
           :: concat (map message_output (response (sdk H)))
           ++ [Disconnect; Echo (lit "Logs: " ++ log_path H) true]
  else
    (exists e, (main H query wd st).1 = Raise e)
    /\ forall path,
         Echo (lit "Logs: " ++ path) true ∉ emitted (main H query wd) st.
Proof.
  pose proof (main_outcome H query wd st) as Hmain.
  pose proof (main_stderr H query wd st) as Herr.
  destruct (runs_clean H st) eqn:Hclean.
  - rewrite main_emitted, emitted_setup_logging.
    unfold runs_clean, logging_ready in Hclean.
    pose proof (setup_logging_ready H st) as Hs. unfold logging_ready in Hs.
    destruct (tempdir_found H); [|done].
    destruct (can_open H (log_path H)); [|done].
    destruct (console_level H st); [|done].
    destruct Hs as (st1 & ->). cbv zeta. rewrite run_agent_outcome.
    pose proof (run_agent_run H query wd
                  (setenv (lit "TDA_LOG_FILE") (log_path H) st1).2) as Hrun.
    destruct (prompty_content H) as [content|e]; [|done].
    destruct Hrun as (options & _ & Hrun). exists options. split; [done|].
    rewrite (emitted_add_events _ _ _ _ Hrun).
    unfold session_events, session_outcome in *.
    destruct (connect_error (sdk H)); [done|].
    destruct (query_error (sdk H)); [done|].
    destruct (response_error (sdk H)); [done|].
    simpl. by rewrite <- app_assoc.
  - split; [done|]. intros path Hin.
    assert (Hlog : lit "Logs: " ++ path
                   ∈ omap stderr_of (emitted (main H query wd) st)).
    { apply list_elem_of_omap. by exists (Echo (lit "Logs: " ++ path) true). }
    rewrite Herr, app_nil_r in Hlog.
    apply list_elem_of_omap in Hlog as (message & _ & Hcost).
    destruct message as [| | | [c|] |]; try done.
    unfold cost_of in Hcost. destruct (float_bool c); [|done].
    apply (cost_line_not_log_path c path). congruence.
Qed.

(** C7, as the claim has it, fails: [main] has no [try]/[finally], so an
    invocation whose session cannot be opened raises after logging was set
    up and prints no log path line at all. *)
Lemma main_no_log_path_when_session_refused :
  (main (host_of script_no_session) (lit "Summarise the style diagnostics")
     (lit ".") (fresh None)).1 = Raise SDKError
  /\ omap stderr_of
       (emitted (main (host_of script_no_session)
                   (lit "Summarise the style diagnostics") (lit "."))
                (fresh None)) = [].
Proof. by vm_compute. Qed.

(** The agent is not even started when logging cannot be set up. *)
Example main_without_tempdir :
  main host_no_tempdir (lit "Summarise the style diagnostics") (lit ".") configured
  = (Raise FileNotFoundError, configured).
Proof. by vm_compute. Qed.

(** C10. In every invocation standard output receives the text segments
    of the messages the response loop got to see, in order, and nothing
    else; the cost summary lines of those messages and, when nothing
    raised, the log path line after them go to standard error. The loop
    sees the whole stream the client yields once logging is set up, the
    prompt is loaded, the session is open and the query is accepted, also
    when the stream raises afterwards; before that it sees nothing. *)
Theorem main_stdout_is_agent_text (H : Host) (query wd : str) (st : state) :
  omap stdout_of (emitted (main H query wd) st) = text_segments (seen H st)
  /\ omap stderr_of (emitted (main H query wd) st)
     = omap cost_of (seen H st)
       ++ if runs_clean H st then [lit "Logs: " ++ log_path H] else [].
Proof. split; [apply main_stdout | apply main_stderr]. Qed.

(** A stream that breaks after one answer: the answer is on standard
    output, and there is no log path line. *)
Example main_streams_broken_stream :
  omap stdout_of
    (emitted (main (host_of script_broken_stream)
                (lit "Summarise the style diagnostics") (lit "."))
             (fresh None))
  = [lit "Found 3 style diagnostics."]
  /\ seen (host_of script_broken_stream) (fresh None)
     = response script_broken_stream
  /\ runs_clean (host_of script_broken_stream) (fresh None) = false.
Proof. by vm_compute. Qed.

(** * Further properties *)

(** ** The one-line prompt *)

Section Collapse.

Implicit Types (s w cur : str) (ws : list str) (c : char).

Lemma split_aux_spaces cur s :
  Forall (fun c => isspace c = true) s -> split_aux cur s = split_aux cur [].
Proof.
  intros Hs; revert cur; induction Hs as [|c s Hc _ IH]; intros cur; [done|].
  cbn [split_aux]. rewrite Hc. destruct cur as [|d cur]; by rewrite IH.
Qed.

Lemma split_aux_tail cur s tail :
  Forall (fun c => isspace c = true) tail ->
  split_aux cur (s ++ tail) = split_aux cur s.
Proof.
  intros Ht; revert cur; induction s as [|c s IH]; intros cur.
  - by apply split_aux_spaces.
  - cbn [app split_aux]. destruct (isspace c), cur; by rewrite ?IH.
Qed.

Lemma split_aux_lead lead s :
  Forall (fun c => isspace c = true) lead ->
  split_aux [] (lead ++ s) = split_aux [] s.
Proof.
  induction 1 as [|c lead Hc _ IH]; [done|].
  cbn [app split_aux]. by rewrite Hc.
Qed.

Lemma split_strip s : split (strip s) = split s.
Proof.
  destruct (strip_stripped s) as [(lead & tail & Hs & Hlead & Htail) _].
  unfold split. rewrite Hs at 2.
  by rewrite split_aux_lead, split_aux_tail.
Qed.

Lemma concat_split_aux cur s :
  concat (split_aux cur s)
  = reverse cur ++ filter (fun c => isspace c = false) s.
Proof.
  unfold str in *. revert cur; induction s as [|c s IH]; intros cur.
  - destruct cur as [|d cur]; [done|]. simpl. by rewrite !app_nil_r.
  - cbn [split_aux]. destruct (isspace c) eqn:Hc.
    + rewrite filter_cons_False by (by rewrite Hc).
      destruct cur as [|d cur]; [by rewrite IH|].
      cbn [concat]. by rewrite IH.
    + rewrite filter_cons_True by done.
      rewrite IH, reverse_cons. by rewrite <- app_assoc.
Qed.

Lemma filter_word w :
  Forall (fun c => isspace c = false) w ->
  filter (fun c => isspace c = false) w = w.
Proof.
  unfold str in *. induction 1 as [|c w Hc _ IH]; [done|].
  by rewrite filter_cons_True, IH.
Qed.

Lemma filter_join ws :
  Forall word ws ->
  filter (fun c => isspace c = false) (join (lit " ") ws) = concat ws.
Proof.
  unfold str in *. induction 1 as [|w ws [_ Hw] Hws IH]; [done|].
  destruct ws as [|w2 ws].
  - simpl. rewrite app_nil_r. by apply filter_word.
  - rewrite join_cons_cons. change (lit " " ++ ?r) with (0x20 :: r).
    rewrite filter_app, filter_cons_False by done.
    cbn [concat]. rewrite filter_word by done. f_equal. exact IH.
Qed.

Lemma join_last ws :
  Forall word ws -> (isspace <$> last (join (lit " ") ws)) <> Some true.
Proof.
  induction 1 as [|w ws [Hne Hw] Hws IH]; [done|].
  destruct ws as [|w2 ws].
  - simpl. destruct (last w) as [c|] eqn:E; [|done].
    apply last_Some_elem_of in E. rewrite Forall_forall in Hw.
    simpl. by rewrite (Hw c E).
  - rewrite join_cons_cons. change (lit " " ++ ?r) with (0x20 :: r).
    rewrite last_app_cons.
    destruct (join (lit " ") (w2 :: ws)) as [|b r] eqn:E; [|by rewrite last_cons_cons].
    pose proof (filter_join (w2 :: ws) Hws) as Hf. rewrite E in Hf.
    apply Forall_cons in Hws as [[Hne2 _] _]. cbn [concat] in Hf.
    symmetry in Hf. apply app_eq_nil in Hf as [-> _]. done.
Qed.

Lemma filter_blank s :
  filter (fun c => isspace c = false) s = [] ->
  Forall (fun c => isspace c = true) s.
Proof.
  unfold str in *. induction s as [|c s IH]; [constructor|].
  destruct (isspace c) eqn:Hc.
  - rewrite filter_cons_False by (by rewrite Hc). by constructor; [|apply IH].
  - by rewrite filter_cons_True.
Qed.

End Collapse.

(** X1. Collapsing whitespace loses nothing but whitespace: the characters
    of the one-line prompt that are not whitespace are those of the prompt
    it was made from, in the same order. *)
Theorem collapse_keeps_text (s : str) :
  filter (fun c => isspace c = false) (join (lit " ") (split s))
  = filter (fun c => isspace c = false) s.
Proof.
  rewrite filter_join by apply split_words.
  unfold split. by rewrite concat_split_aux.
Qed.

(** X2. The one-line prompt is empty exactly when the prompt holds
    nothing but whitespace (the empty prompt included). *)
Theorem collapse_empty_iff_blank (s : str) :
  join (lit " ") (split s) = [] <-> Forall (fun c => isspace c = true) s.
Proof.
  split.
  - intros E. apply filter_blank.
    pose proof (concat_split_aux [] s) as Hs.
    pose proof (filter_join _ (split_words s)) as Hj.
    rewrite E in Hj. unfold split in Hj. rewrite <- Hj in Hs.
    symmetry. exact Hs.
  - intros Hs. unfold split. by rewrite split_aux_spaces.
Qed.

(** X3. The one-line prompt neither begins nor ends with whitespace. *)
Theorem collapse_trimmed (s : str) :
  (isspace <$> head (join (lit " ") (split s))) <> Some true
  /\ (isspace <$> last (join (lit " ") (split s))) <> Some true.
Proof.
  split; [apply join_head | apply join_last]; apply split_words.
Qed.

Lemma length_join_split_aux (cur s : str) :
  (length (join (lit " ") (split_aux cur s)) <= length cur + length s)%nat.
Proof.
  revert cur; induction s as [|c s IH]; intros cur.
  - destruct cur as [|d cur]; [done|].
    cbn [split_aux join]. rewrite length_reverse. lia.
  - cbn [split_aux]. destruct (isspace c).
    + specialize (IH []). destruct cur as [|d cur]; [simpl in *; lia|].
      destruct (split_aux [] s) as [|w ws] eqn:E.
      * cbn [join]. rewrite length_reverse. simpl. lia.
      * rewrite join_cons_cons, !length_app, length_reverse.
        simpl in *. lia.
    + specialize (IH (c :: cur)). simpl in *. lia.
Qed.

(** X4. The one-line prompt is never longer than the prompt it was made
    from. *)
Theorem collapse_not_longer (s : str) :
  (length (join (lit " ") (split s)) <= length s)%nat.
Proof. apply (length_join_split_aux [] s). Qed.

(** ** More on the agent runner *)

Lemma run_agent_options H query wd st :
  match prompty_content H with
  | Raise e => run_agent H query wd st = (Raise e, st)
  | Return content =>
      exists options,
        (cwd options = wd
         /\ permission_mode options = lit "acceptEdits"
         /\ sp_append (system_prompt options)
            = join (lit " ") (split (unmarked content)))
        /\ run_agent H query wd st
           = (session_outcome (sdk H),
              add_events (session_events (sdk H) options query) st)
  end.
Proof.
  unfold run_agent, bind at 1. unfold load_system_prompt, bind at 1, lift.
  unfold unmarked.
  destruct (prompty_content H) as [content|e]; [|done].
  destruct (startswith content (lit "system:"));
    (eexists; split; [|apply session_run]); cbn; repeat split.
  by rewrite split_strip.
Qed.

Lemma session_options sc options query :
  omap options_of (session_events sc options query) = [options].
Proof.
  unfold session_events. cbn [omap list_omap options_of]. f_equal.
  destruct (connect_error sc); [done|]. cbn [omap list_omap options_of].
  rewrite omap_app. simpl. rewrite app_nil_r.
  destruct (query_error sc); [done|]. by apply omap_output.
Qed.

(** X5. The options [run_agent] hands to the client carry the working
    directory it was given, unchanged, and as text to append to the system
    prompt the template without its [system:] marker, collapsed to one
    line: stripping the template first makes no difference to it. *)
Theorem run_agent_appends_collapsed_template (H : Host) (query wd : str)
    (st : state) :
  (fun o => (cwd o, sp_append (system_prompt o)))
    <$> omap options_of (emitted (run_agent H query wd) st)
  = match prompty_content H with
    | Return content => [(wd, join (lit " ") (split (unmarked content)))]
    | Raise _ => []
    end.
Proof.
  pose proof (run_agent_options H query wd st) as Hrun.
  destruct (prompty_content H) as [content|e].
  - destruct Hrun as (options & (Hwd & _ & Happ) & Hrun).
    rewrite (emitted_add_events _ _ _ _ Hrun), session_options.
    simpl. by rewrite Hwd, Happ.
  - by rewrite (emitted_spec _ _ []) by (rewrite Hrun; simpl; by rewrite app_nil_r).
Qed.

(** X6. When the prompt template cannot be loaded, [run_agent] raises
    what the loader raised and has done nothing else: the client was never
    contacted, nothing was printed, the state is as it was. *)
Theorem run_agent_fails_before_session (H : Host) (query wd : str)
    (st : state) (e : exn) :
  prompty_content H = Raise e ->
  run_agent H query wd st = (Raise e, st).
Proof.
  intros He. pose proof (run_agent_options H query wd st) as Hrun.
  by rewrite He in Hrun.
Qed.

Lemma run_agent_fails_before_session_witness :
  run_agent host_no_prompt (lit "Summarise the style diagnostics") (lit ".")
            (fresh None)
  = (Raise PromptyError, fresh None).
Proof.
  apply (run_agent_fails_before_session host_no_prompt). reflexivity.
Defined.

(** X7. Once the session with the client is open it is closed again,
    whatever happens in between: the query is submitted right after the
    session opens, the output of the messages the loop got to see follows,
    and the last thing [run_agent] does is leave the session, also when the
    query or the stream raised; what they raised is what [run_agent]
    raises. *)
Theorem run_agent_closes_session (H : Host) (query wd : str) (st : state)
    (content : str) :
  prompty_content H = Return content ->
  connect_error (sdk H) = None ->
  exists options,
    emitted (run_agent H query wd) st
    = Connect options :: Query query
        :: concat (map message_output (consumed (sdk H))) ++ [Disconnect]
    /\ (run_agent H query wd st).1
       = match query_error (sdk H), response_error (sdk H) with
         | Some e, _ => Raise e
         | None, Some e => Raise e
         | None, None => Return tt
         end.
Proof.
  intros Hc Hopen. pose proof (run_agent_options H query wd st) as Hrun.
  rewrite Hc in Hrun. destruct Hrun as (options & _ & Hrun).
  exists options. rewrite (emitted_add_events _ _ _ _ Hrun), Hrun.
  unfold session_events, session_outcome, consumed. rewrite Hopen.
  by destruct (query_error (sdk H)).
Qed.

Lemma run_agent_closes_session_witness :
  exists options,
    emitted (run_agent (host_of script_broken_stream)
               (lit "Summarise the style diagnostics") (lit "."))
            (fresh None)
    = Connect options :: Query (lit "Summarise the style diagnostics")
        :: concat (map message_output (consumed script_broken_stream))
        ++ [Disconnect]
    /\ (run_agent (host_of script_broken_stream)
          (lit "Summarise the style diagnostics") (lit ".") (fresh None)).1
       = Raise SDKError.
Proof.
  apply (run_agent_closes_session (host_of script_broken_stream) _ _ _
           sample_template); reflexivity.
Defined.

(** X8. When the session cannot be opened, [run_agent] raises what the
    client raised; it has asked for the session and done nothing more: no
    query, no output, and no session to leave. *)
Theorem run_agent_session_refused (H : Host) (query wd : str) (st : state)
    (content : str) (e : exn) :
  prompty_content H = Return content ->
  connect_error (sdk H) = Some e ->
  exists options,
    run_agent H query wd st = (Raise e, add_events [Connect options] st).
Proof.
  intros Hc Hopen. pose proof (run_agent_options H query wd st) as Hrun.
  rewrite Hc in Hrun. destruct Hrun as (options & _ & Hrun).
  exists options. rewrite Hrun.
  unfold session_events, session_outcome. by rewrite Hopen.
Qed.

Lemma run_agent_session_refused_witness :
  exists options,
    run_agent (host_of script_no_session)
      (lit "Summarise the style diagnostics") (lit ".") (fresh None)
    = (Raise SDKError, add_events [Connect options] (fresh None)).
Proof.
  apply (run_agent_session_refused (host_of script_no_session) _ _ _
           sample_template); reflexivity.
Defined.

Lemma run_agent_frame H query wd st :
  environ (run_agent H query wd st).2 = environ st
  /\ root (run_agent H query wd st).2 = root st.
Proof.
  pose proof (run_agent_options H query wd st) as Hrun.
  destruct (prompty_content H) as [content|e].
  - destruct Hrun as (options & _ & ->). done.
  - by rewrite Hrun.
Qed.

(** ** More on logging setup *)

Lemma eqb_str_eq (a b : str) : eqb_str a b = true <-> a = b.
Proof.
  revert b; induction a as [|x a IH]; intros [|y b]; simpl; try done.
  rewrite andb_true_iff, N.eqb_eq, IH. split; [by intros [-> ->] | by intros [= -> ->]].
Qed.

Lemma assoc_In {V} (k : str) (kvs : list (string * V)) (v : V) :
  assoc k kvs = Some v -> exists name, k = lit name /\ In (name, v) kvs.
Proof.
  induction kvs as [|[name' v'] kvs IH]; simpl; [done|].
  destruct (eqb_str k (lit name')) eqn:E.
  - intros [= ->]. apply eqb_str_eq in E. exists name'. by split; [|left].
  - intros (name & Hk & Hin)%IH. exists name. by split; [|right].
Qed.

(** Every level name is an attribute of the module, holding its level. *)
Lemma level_name_attr (k : str) (l : N) :
  assoc k nameToLevel = Some l -> assoc k logging_attrs = Some (PyInt l).
Proof.
  intros (name & -> & Hin)%assoc_In. unfold nameToLevel in Hin.
  repeat (destruct Hin as [[= <- <-]|Hin]; [reflexivity|]). destruct Hin.
Qed.

(** The two attributes that are no level. *)
Lemma console_level_raises (k : str) :
  (exists e, checkLevel (getattr_logging k (PyInt INFO)) = Raise e)
  <-> k = lit "BASIC_FORMAT" \/ k = lit "_STYLES".
Proof.
  split.
  - intros [e He]. unfold getattr_logging in He.
    destruct (assoc k logging_attrs) as [v|] eqn:E; [|done].
    apply assoc_In in E as (name & -> & Hin). unfold logging_attrs in Hin.
    repeat (destruct Hin as [[= <- <-]|Hin]; [by auto|]). destruct Hin.
  - intros [-> | ->]; by eexists.
Qed.

(** X9. When a temporary directory is found and the log file in it cannot
    be opened, [setup_logging] raises [OSError] and the root logger is left
    with no handler at all: those it had are gone, and none was added. Its
    level and the environment are as they were. *)
Theorem setup_logging_unopenable_log (H : Host) (st : state) :
  tempdir_found H = true ->
  can_open H (path_join (gettempdir H) (lit "tda.log")) = false ->
  (setup_logging H st).1 = Raise OSError
  /\ handlers (root (setup_logging H st).2) = []
  /\ logger_level (root (setup_logging H st).2) = logger_level (root st)
  /\ environ (setup_logging H st).2 = environ st.
Proof.
  intros Hfound Hopen. pose proof (setup_logging_run H st Hfound) as Hrun.
  unfold log_path in Hrun. rewrite Hopen in Hrun. by rewrite Hrun.
Qed.

Lemma setup_logging_unopenable_log_witness :
  (setup_logging host_no_log configured).1 = Raise OSError
  /\ handlers (root (setup_logging host_no_log configured).2) = []
  /\ logger_level (root (setup_logging host_no_log configured).2)
     = logger_level (root configured)
  /\ environ (setup_logging host_no_log configured).2 = environ configured.
Proof.
  apply (setup_logging_unopenable_log host_no_log configured); reflexivity.
Defined.

(** X10. When a temporary directory is found, the log file opens and
    [TDA_LOG_LEVEL], in upper case, is
    one of the level names of [logging] (in any mix of cases in the
    environment), [setup_logging] returns the log path and the console
    handler has that level; the file handler and the root logger are at
    DEBUG. An unset variable counts as INFO. *)
Theorem setup_logging_named_level (H : Host) (st : state) (l : N) :
  tempdir_found H = true ->
  can_open H (path_join (gettempdir H) (lit "tda.log")) = true ->
  assoc (upper H (default (lit "INFO") (environ st !! lit "TDA_LOG_LEVEL")))
        nameToLevel = Some l ->
  (setup_logging H st).1 = Return (path_join (gettempdir H) (lit "tda.log"))
  /\ level <$> handlers (root (setup_logging H st).2) = [DEBUG; l]
  /\ logger_level (root (setup_logging H st).2) = DEBUG.
Proof.
  intros Hfound Hopen Hl%level_name_attr.
  pose proof (setup_logging_run H st Hfound) as Hrun.
  unfold log_path, console_level, getattr_logging in Hrun.
  rewrite Hopen, Hl in Hrun. cbn [checkLevel] in Hrun.
  destruct Hrun as (fh & ch & [_ Hfh] & [_ Hch] & ->).
  simpl. by rewrite Hfh, Hch.
Qed.

Lemma setup_logging_named_level_witness :
  (setup_logging (host_of script_ok) (fresh (Some (lit "Warning")))).1
  = Return (path_join (gettempdir (host_of script_ok)) (lit "tda.log"))
  /\ level <$> handlers
       (root (setup_logging (host_of script_ok)
                (fresh (Some (lit "Warning")))).2) = [DEBUG; WARNING]
  /\ logger_level
       (root (setup_logging (host_of script_ok)
                (fresh (Some (lit "Warning")))).2) = DEBUG.
Proof.
  apply (setup_logging_named_level (host_of script_ok)
           (fresh (Some (lit "Warning"))) WARNING); reflexivity.
Defined.

(** X11. When a temporary directory is found, the log file opens and
    [TDA_LOG_LEVEL], in upper case, names
    no attribute of the [logging] module, the console handler falls back
    to INFO; the file handler is at DEBUG. *)
Theorem setup_logging_unknown_level (H : Host) (st : state) :
  tempdir_found H = true ->
  can_open H (path_join (gettempdir H) (lit "tda.log")) = true ->
  assoc (upper H (default (lit "INFO") (environ st !! lit "TDA_LOG_LEVEL")))
        logging_attrs = None ->
  (setup_logging H st).1 = Return (path_join (gettempdir H) (lit "tda.log"))
  /\ level <$> handlers (root (setup_logging H st).2) = [DEBUG; INFO].
Proof.
  intros Hfound Hopen Hl. pose proof (setup_logging_run H st Hfound) as Hrun.
  unfold log_path, console_level, getattr_logging in Hrun.
  rewrite Hopen, Hl in Hrun. cbn [checkLevel] in Hrun.
  destruct Hrun as (fh & ch & [_ Hfh] & [_ Hch] & ->).
  simpl. by rewrite Hfh, Hch.
Qed.

Lemma setup_logging_unknown_level_witness :
  (setup_logging (host_of script_ok) (fresh (Some (lit "verbose")))).1
  = Return (path_join (gettempdir (host_of script_ok)) (lit "tda.log"))
  /\ level <$> handlers
       (root (setup_logging (host_of script_ok)
                (fresh (Some (lit "verbose")))).2) = [DEBUG; INFO].
Proof.
  apply (setup_logging_unknown_level (host_of script_ok)
           (fresh (Some (lit "verbose")))); reflexivity.
Defined.

(** X12. When a temporary directory is found and the log file opens,
    [setup_logging] raises for two values
    of [TDA_LOG_LEVEL] only: those that read [BASIC_FORMAT] or [_STYLES] in
    upper case. With any other value, or none, it returns. *)
Theorem setup_logging_raises_iff (H : Host) (st : state) :
  tempdir_found H = true ->
  can_open H (path_join (gettempdir H) (lit "tda.log")) = true ->
  (exists e, (setup_logging H st).1 = Raise e)
  <-> upper H (default (lit "INFO") (environ st !! lit "TDA_LOG_LEVEL"))
      = lit "BASIC_FORMAT"
      \/ upper H (default (lit "INFO") (environ st !! lit "TDA_LOG_LEVEL"))
         = lit "_STYLES".
Proof.
  intros Hfound Hopen. rewrite <- console_level_raises.
  pose proof (setup_logging_run H st Hfound) as Hrun.
  unfold log_path, console_level in Hrun. rewrite Hopen in Hrun.
  destruct (checkLevel _) as [l|e'].
  - destruct Hrun as (fh & ch & _ & _ & ->). split; by intros [e He].
  - rewrite Hrun. split; intros _; by eexists.
Qed.

Lemma setup_logging_raises_iff_witness :
  (exists e,
      (setup_logging (host_of script_ok) (fresh (Some (lit "_styles")))).1
      = Raise e)
  <-> upper (host_of script_ok)
        (default (lit "INFO")
           (environ (fresh (Some (lit "_styles"))) !! lit "TDA_LOG_LEVEL"))
      = lit "BASIC_FORMAT"
      \/ upper (host_of script_ok)
           (default (lit "INFO")
              (environ (fresh (Some (lit "_styles"))) !! lit "TDA_LOG_LEVEL"))
         = lit "_STYLES".
Proof.
  apply (setup_logging_raises_iff (host_of script_ok)
           (fresh (Some (lit "_styles")))); reflexivity.
Defined.

Example setup_logging_styles :
  (setup_logging (host_of script_ok) (fresh (Some (lit "_styles")))).1
  = Raise TypeError.
Proof. reflexivity. Qed.

(** X13. Setting logging up again changes nothing: a second call right
    after a call that returned returns the same path and leaves the root
    logger exactly as the first call left it, and neither call touches the
    environment. *)
Theorem setup_logging_again (H : Host) (st st1 : state) (path : str) :
  setup_logging H st = (Return path, st1) ->
  (setup_logging H st1).1 = Return path
  /\ root (setup_logging H st1).2 = root st1
  /\ environ (setup_logging H st1).2 = environ st.
Proof.
  unfold setup_logging, new_RotatingFileHandler, tempfile_gettempdir.
  destruct (tempdir_found H); [|done].
  unfold bind, getenv, get_root, set_root, emit, setLevel, lift, ret, raise.
  cbn -[checkLevel getattr_logging upper lit N.mul path_join].
  destruct (can_open H _); [|done].
  change (checkLevel (PyInt DEBUG)) with (@Return N DEBUG).
  cbn -[checkLevel getattr_logging upper lit N.mul path_join].
  destruct (checkLevel _) as [l|e] eqn:El; [|done].
  intros [= <- <-]. cbn -[checkLevel getattr_logging upper lit N.mul path_join].
  by rewrite El.
Qed.

Lemma setup_logging_again_witness :
  (setup_logging (host_of script_ok)
     (setup_logging (host_of script_ok) configured).2).1
  = Return (lit "/tmp/tda.log")
  /\ root (setup_logging (host_of script_ok)
             (setup_logging (host_of script_ok) configured).2).2
     = root (setup_logging (host_of script_ok) configured).2
  /\ environ (setup_logging (host_of script_ok)
                (setup_logging (host_of script_ok) configured).2).2
     = environ configured.
Proof.
  apply (setup_logging_again (host_of script_ok) configured). reflexivity.
Defined.

(** ** More on the entry point *)

Lemma setup_logging_raised H st e :
  (setup_logging H st).1 = Raise e ->
  setup_logging H st
  = (Raise e, if tempdir_found H then cleared H st else st).
Proof.
  setup_logging_cases H st Hrun; [|rewrite Hrun; by intros [= <-]].
  destruct (can_open H (log_path H)).
  - destruct (console_level H st).
    + by destruct Hrun as (fh & ch & _ & _ & ->).
    + rewrite Hrun. by intros [= ->].
  - rewrite Hrun. by intros [= <-].
Qed.

(** X15. [main] raises the first failure in program order and swallows
    none: what [setup_logging] raised, else what loading the prompt
    raised, else what opening the session, then the query, then the
    response stream raised; it returns when none of them raised. *)
Theorem main_raises_first_failure (H : Host) (query wd : str) (st : state) :
  (main H query wd st).1
  = match (setup_logging H st).1, prompty_content H with
    | Raise e, _ => Raise e
    | Return _, Raise e => Raise e
    | Return _, Return _ =>
        match connect_error (sdk H), query_error (sdk H),
              response_error (sdk H) with
        | Some e, _, _ => Raise e
        | None, Some e, _ => Raise e
        | None, None, Some e => Raise e
        | None, None, None => Return tt
        end
    end.
Proof.
  rewrite main_run.
  destruct (setup_logging H st) as [[path|e] st1]; [|done].
  cbn [fst].
  pose proof (run_agent_outcome H query wd
                (setenv (lit "TDA_LOG_FILE") path st1).2) as Hout.
  destruct (run_agent _ _ _ _) as [[[]|e] st3]; cbn [fst] in *;
    destruct (prompty_content H); exact Hout.
Qed.

(** X16. When [main] returns, the path it printed last, the path in
    [TDA_LOG_FILE] and the file of the root logger's rotating file handler
    are one and the same: [tda.log] in the temporary directory. *)
Theorem main_log_path_consistent (H : Host) (query wd : str) (st st' : state) :
  main H query wd st = (Return tt, st') ->
  let path := path_join (gettempdir H) (lit "tda.log") in
  last (trace st') = Some (Echo (lit "Logs: " ++ path) true)
  /\ environ st' !! lit "TDA_LOG_FILE" = Some path
  /\ exists fh ch,
       handlers (root st') = [fh; ch]
       /\ kind fh = RotatingFileHandler path (5 * 1024 * 1024) 3.
Proof.
  rewrite main_run. setup_logging_cases H st Hrun; [|by rewrite Hrun].
  destruct (setup_logging H st) as [[path|e] st1] eqn:Hsetup; [|done].
  apply setup_logging_returns in Hsetup as ->.
  pose proof (run_agent_frame H query wd
                (setenv (lit "TDA_LOG_FILE") (log_path H) st1).2) as [Henv Hroot].
  destruct (run_agent _ _ _ _) as [[[]|e] st3]; [|done].
  intros [= <-]. cbn [fst snd add_events trace environ root] in *.
  split; [apply last_snoc|]. split.
  - rewrite Henv. simpl. apply lookup_insert_eq.
  - rewrite Hroot. simpl.
    destruct (can_open H (log_path H)); [|done].
    destruct (console_level H st); [|done].
    destruct Hrun as (fh & ch & [Hfh _] & _ & [= ->]). by exists fh, ch.
Qed.

Lemma main_log_path_consistent_witness :
  let st' :=
    (main (host_of script_ok) (lit "Summarise the style diagnostics") (lit ".")
       configured).2 in
  let path := path_join (gettempdir (host_of script_ok)) (lit "tda.log") in
  last (trace st') = Some (Echo (lit "Logs: " ++ path) true)
  /\ environ st' !! lit "TDA_LOG_FILE" = Some path
  /\ exists fh ch,
       handlers (root st') = [fh; ch]
       /\ kind fh = RotatingFileHandler path (5 * 1024 * 1024) 3.
Proof.
  apply (main_log_path_consistent (host_of script_ok)
           (lit "Summarise the style diagnostics") (lit ".") configured).
  vm_compute. reflexivity.
Defined.

(** X17. When [setup_logging] raises, [main] raises the same and stops
    there: the agent client is never contacted, nothing is printed, and
    [TDA_LOG_FILE] is not set. The state is the one [setup_logging] left:
    untouched when no temporary directory was found, and else with the
    root logger's handlers cleared and the log file asked for. *)
Theorem main_stops_when_logging_fails (H : Host) (query wd : str) (st : state)
    (e : exn) :
  (setup_logging H st).1 = Raise e ->
  main H query wd st
  = (Raise e,
     if tempdir_found H then
       {| environ := environ st;
          root := {| handlers := []; logger_level := logger_level (root st) |};
          trace :=
            trace st ++ [OpenLog (path_join (gettempdir H) (lit "tda.log"))] |}
     else st).
Proof.
  intros He%setup_logging_raised. by rewrite main_run, He.
Qed.

Lemma main_stops_when_logging_fails_witness :
  main host_no_log (lit "Summarise the style diagnostics") (lit ".") configured
  = (Raise OSError,
     if tempdir_found host_no_log then
       {| environ := environ configured;
          root :=
            {| handlers := [];
               logger_level := logger_level (root configured) |};
          trace :=
            trace configured
            ++ [OpenLog (path_join (gettempdir host_no_log) (lit "tda.log"))] |}
     else configured).
Proof.
  apply (main_stops_when_logging_fails host_no_log). reflexivity.
Defined.

(** X18. When no usable temporary directory is found, [setup_logging]
    raises [FileNotFoundError] before it touches anything: the handlers
    the root logger had are still installed, no log file was asked for,
    and the state is as it was. *)
Theorem setup_logging_without_tempdir (H : Host) (st : state) :
  tempdir_found H = false ->
  setup_logging H st = (Raise FileNotFoundError, st).
Proof. apply setup_logging_no_tempdir. Qed.

Lemma setup_logging_without_tempdir_witness :
  setup_logging host_no_tempdir configured = (Raise FileNotFoundError, configured).
Proof.
  apply (setup_logging_without_tempdir host_no_tempdir configured). reflexivity.
Defined.
